(** * The producer/consumer backpressure simulation of [src/lib/streams.ts]

    A shallow embedding of [runRealTimeStreamDemo] (and of [processDelay],
    which it calls), followed by the properties of the simulation loop.
    Beside it: the hook that runs the demos and keeps their event log
    ([useStreams]), and the CSV lines of [runCSVProcessingDemo] with the
    step that parses them.

    The TypeScript function is a generator run by the effect library.  Its
    only interactions with the outside are
    - [Math.random()], read once per generated item,
    - [Date.now()], read once per emitted event,
    - the caller's [onEvent] callback, called once per emitted event.
    (The [Effect.log] line and the 10 ms [Effect.delay] between two cycles
    touch none of the variables of the loop and are left out.)

    The two readings are modelled by a [Host]: the answer of the k-th call
    of each function.  The callback is modelled by the list of the events
    it has received, oldest first.  JavaScript numbers that are counters,
    lengths or floored values are integers, modelled in [Z]; the one real
    number, the result of [Math.random()], is a rational, and its product by
    100 is taken exactly, where the code rounds it to a double: a value may
    differ from the code's by the rounding of that product.  The counters,
    the buffer length and the tests never depend on the values drawn, and
    no property below states what a value is: the values are related to one
    another only (events, buffer, results). *)

From Stdlib Require Import ZArith QArith Qround List Bool Lia Ascii DecimalString DecimalPos.
From stdpp Require Import base gmap strings list.

Close Scope Q_scope.
Local Open Scope Z_scope.

(** ** Events *)

Inductive StreamEventType : Type :=
  | csv_row
  | transform
  | batch
  | complete
  | error
  | backpressure
  | throttle.

(** [data?: unknown]: where the simulation fills it, it is an object
    literal whose properties are numbers. *)
Record StreamEvent : Type := mkEvent {
  type : StreamEventType;
  message : string;
  data : option (gmap string Z);
  timestamp : Z
}.

(** [StreamDemoOptions] without [onEvent], which is the sink of the state. *)
Inductive Speed : Type := slow | normal | fast.

Record StreamDemoOptions : Type := mkOptions {
  processingSpeed : Speed;
  enableBackpressure : bool;
  batchSize : Z
}.

Definition processDelay (speed : Speed) : Z :=
  match speed with
  | slow => 200
  | normal => 50
  | fast => 10
  end.

(** ** JavaScript primitives used by the loop *)

(** A number inside a template literal: its decimal writing. *)
Definition show (z : Z) : string := NilZero.string_of_int (Z.to_int z).

Definition speedName (speed : Speed) : string :=
  match speed with
  | slow => "slow"
  | normal => "normal"
  | fast => "fast"
  end.

Definition Math_floor (q : Q) : Z := Qfloor q.
Definition Math_ceil (q : Q) : Z := Qceiling q.
Definition Math_max (a b : Z) : Z := Z.max a b.

(** [a / b] on numbers. *)
Definition div (a b : Z) : Q := Qdiv (inject_Z a) (inject_Z b).

(** [arr.shift()]: the first element ([undefined] on an empty array) and
    what is left of the array. *)
Definition shift (arr : list Z) : option Z * list Z :=
  match arr with
  | [] => (None, [])
  | x :: rest => (Some x, rest)
  end.

(** [arr.reduce((acc, val) => acc + val, 0)] *)
Definition reduce_sum (arr : list Z) : Z := fold_left Z.add arr 0.

(** ** The host and the state of one run *)

Record Host : Type := mkHost {
  Math_random : nat -> Q;   (* answer of the k-th call, k = 0, 1, ... *)
  Date_now : nat -> Z
}.

Record Sim : Type := mkSim {
  itemsGenerated : Z;
  itemsProcessed : Z;
  itemsDropped : Z;
  backpressureEvents : Z;
  buffer : list Z;
  results : list Z;
  cycles : Z;
  delivered : list StreamEvent;   (* what [onEvent] has received so far *)
  randomCalls : nat;
  nowCalls : nat
}.

Definition BUFFER_LIMIT : Z := 5.
Definition TOTAL_ITEMS : Z := 20.
Definition producerInterval : Z := 30.
Definition consumerDelay (o : StreamDemoOptions) : Z := processDelay (processingSpeed o).
Definition maxCycles : Z := Math_max (TOTAL_ITEMS * 2) 60.

Definition bufferLength (st : Sim) : Z := Z.of_nat (length (buffer st)).

(** [onEvent({ type, message, data, timestamp: Date.now() })] *)
Definition onEvent (h : Host) (ty : StreamEventType) (msg : string)
    (d : option (gmap string Z)) (st : Sim) : Sim :=
  {| itemsGenerated := itemsGenerated st;
     itemsProcessed := itemsProcessed st;
     itemsDropped := itemsDropped st;
     backpressureEvents := backpressureEvents st;
     buffer := buffer st;
     results := results st;
     cycles := cycles st;
     delivered := delivered st ++ [mkEvent ty msg d (Date_now h (nowCalls st))];
     randomCalls := randomCalls st;
     nowCalls := S (nowCalls st) |}.

(** [const newValue = Math.floor(Math.random() * 100); buffer.push(newValue);
    itemsGenerated++], returning [newValue]. *)
Definition generate (h : Host) (st : Sim) : Z * Sim :=
  let newValue := Math_floor (Qmult (Math_random h (randomCalls st)) (inject_Z 100)) in
  (newValue,
   {| itemsGenerated := itemsGenerated st + 1;
      itemsProcessed := itemsProcessed st;
      itemsDropped := itemsDropped st;
      backpressureEvents := backpressureEvents st;
      buffer := buffer st ++ [newValue];
      results := results st;
      cycles := cycles st;
      delivered := delivered st;
      randomCalls := S (randomCalls st);
      nowCalls := nowCalls st |}).

(** [backpressureEvents++] *)
Definition blocked (st : Sim) : Sim :=
  {| itemsGenerated := itemsGenerated st;
     itemsProcessed := itemsProcessed st;
     itemsDropped := itemsDropped st;
     backpressureEvents := backpressureEvents st + 1;
     buffer := buffer st;
     results := results st;
     cycles := cycles st;
     delivered := delivered st;
     randomCalls := randomCalls st;
     nowCalls := nowCalls st |}.

(** [buffer.shift(); itemsDropped++], the buffer being left as [rest]. *)
Definition dropOldest (rest : list Z) (st : Sim) : Sim :=
  {| itemsGenerated := itemsGenerated st;
     itemsProcessed := itemsProcessed st;
     itemsDropped := itemsDropped st + 1;
     backpressureEvents := backpressureEvents st;
     buffer := rest;
     results := results st;
     cycles := cycles st;
     delivered := delivered st;
     randomCalls := randomCalls st;
     nowCalls := nowCalls st |}.

(** [buffer.shift(); results.push(transformed); itemsProcessed++] *)
Definition consume (rest : list Z) (transformed : Z) (st : Sim) : Sim :=
  {| itemsGenerated := itemsGenerated st;
     itemsProcessed := itemsProcessed st + 1;
     itemsDropped := itemsDropped st;
     backpressureEvents := backpressureEvents st;
     buffer := rest;
     results := results st ++ [transformed];
     cycles := cycles st;
     delivered := delivered st;
     randomCalls := randomCalls st;
     nowCalls := nowCalls st |}.

(** [cycles++] *)
Definition nextCycle (st : Sim) : Sim :=
  {| itemsGenerated := itemsGenerated st;
     itemsProcessed := itemsProcessed st;
     itemsDropped := itemsDropped st;
     backpressureEvents := backpressureEvents st;
     buffer := buffer st;
     results := results st;
     cycles := cycles st + 1;
     delivered := delivered st;
     randomCalls := randomCalls st;
     nowCalls := nowCalls st |}.

(** The variables declared before the loop.  Nothing has been delivered and
    neither host function has been called when the run starts. *)
Definition freshSim : Sim :=
  {| itemsGenerated := 0;
     itemsProcessed := 0;
     itemsDropped := 0;
     backpressureEvents := 0;
     buffer := [];
     results := [];
     cycles := 0;
     delivered := [];
     randomCalls := 0;
     nowCalls := 0 |}.

(** ** The simulation *)

Section Run.

Variable o : StreamDemoOptions.
Variable h : Host.

(** The three events sent before the loop.  The first two are sent before
    the variables are declared, which makes no difference to either. *)
Definition announce (st : Sim) : Sim :=
  let st := onEvent h transform
    ("🚀 Simulating Producer/Consumer with " +:+
     (if enableBackpressure o then "backpressure enabled" else "NO backpressure"))
    None st in
  let st := onEvent h transform
    ("📊 Producer: fast (every 30ms) | Consumer: " +:+ speedName (processingSpeed o) +:+
     " | Buffer: max 5 items")
    None st in
  onEvent h transform
    ("⚖️ Timing: Producer " +:+ show producerInterval +:+ "ms vs Consumer " +:+
     show (consumerDelay o) +:+ "ms " +:+
     (if consumerDelay o >? producerInterval then "(PRESSURE!)" else "(no pressure)"))
    None st.

(** The ["Generated"] event of the branch with backpressure. *)
Definition generatedEvent (newValue : Z) (st : Sim) : Sim :=
  onEvent h transform
    ("📤 Generated: " +:+ show newValue +:+ " → Buffer [" +:+ show (bufferLength st) +:+
     "/" +:+ show BUFFER_LIMIT +:+ "]")
    (Some {[ "value" := newValue; "bufferSize" := bufferLength st ]}) st.

(** The ["Generated"] event of the branch without backpressure. *)
Definition generatedEventFull (newValue : Z) (st : Sim) : Sim :=
  onEvent h transform
    ("📤 Generated: " +:+ show newValue +:+ " → Buffer [" +:+ show (bufferLength st) +:+
     "/" +:+ show BUFFER_LIMIT +:+ "] " +:+
     (if bufferLength st =? BUFFER_LIMIT then "(FULL!)" else ""))
    (Some {[ "value" := newValue; "bufferSize" := bufferLength st ]}) st.

(** The overflow test of the branch without backpressure, with its block.
    [buffer.shift()] runs under [buffer.length >= BUFFER_LIMIT], so it finds
    an element; on an empty array it would return [undefined], which has no
    writing as an integer: that case leaves the state as it is. *)
Definition evictIfFull (st : Sim) : Sim :=
  if bufferLength st >=? BUFFER_LIMIT then
    match shift (buffer st) with
    | (Some dropped, rest) =>
        let st := dropOldest rest st in
        onEvent h error
          ("💥 OVERFLOW! Dropped: " +:+ show dropped +:+ " (Total lost: " +:+
           show (itemsDropped st) +:+ ")")
          (Some {[ "dropped" := dropped; "totalDropped" := itemsDropped st ]}) st
    | (None, _) => st
    end
  else st.

Definition shouldGenerate (st : Sim) : bool :=
  (itemsGenerated st <? TOTAL_ITEMS) &&
  (Z.rem (cycles st) (Math_ceil (div producerInterval 10)) =? 0).

(** PRODUCER PHASE *)
Definition producerPhase (st : Sim) : Sim :=
  if shouldGenerate st then
    if enableBackpressure o then
      if bufferLength st <? BUFFER_LIMIT then
        let '(newValue, st) := generate h st in
        generatedEvent newValue st
      else
        let st := blocked st in
        onEvent h backpressure
          ("🛑 BACKPRESSURE! Buffer full [" +:+ show (bufferLength st) +:+ "/" +:+
           show BUFFER_LIMIT +:+ "] - Producer blocked")
          (Some {[ "bufferSize" := bufferLength st ]}) st
    else
      let st := evictIfFull st in
      let '(newValue, st) := generate h st in
      generatedEventFull newValue st
  else st.

Definition shouldConsume (st : Sim) : bool :=
  (bufferLength st >? 0) &&
  (Z.rem (cycles st) (Math_ceil (div (consumerDelay o) 10)) =? 0).

(** CONSUMER PHASE.  [buffer.shift()!] runs under [buffer.length > 0], so it
    finds an element (the other case leaves the state as it is). *)
Definition consumerPhase (st : Sim) : Sim :=
  if shouldConsume st then
    match shift (buffer st) with
    | (Some value, rest) =>
        let transformed := value * 2 in
        let st := consume rest transformed st in
        onEvent h transform
          ("📥 Processed: " +:+ show value +:+ " → " +:+ show transformed +:+
           " | Buffer: [" +:+ show (bufferLength st) +:+ "/" +:+ show BUFFER_LIMIT +:+
           "] | Done: " +:+ show (itemsProcessed st))
          (Some {[ "value" := value; "transformed" := transformed;
                   "bufferSize" := bufferLength st; "processed" := itemsProcessed st ]}) st
    | (None, _) => st
    end
  else st.

(** The test and the body of the [while]. *)
Definition loopTest (st : Sim) : bool :=
  (cycles st <? maxCycles) && (itemsProcessed st <? TOTAL_ITEMS).

Definition loopBody (st : Sim) : Sim :=
  consumerPhase (producerPhase (nextCycle st)).

(** The loop, run for at most [n] iterations: the state after [n]
    iterations, or the state at which the test failed if that comes first. *)
Fixpoint whileLoop (n : nat) (st : Sim) : Sim :=
  match n with
  | O => st
  | S n' => if loopTest st then whileLoop n' (loopBody st) else st
  end.

(** The state of the run after [n] iterations of the loop. *)
Definition afterCycles (n : nat) : Sim := whileLoop n (announce freshSim).

(** The state when the loop is left: [maxCycles] iterations are enough
    (see [loop_exits]). *)
Definition afterLoop : Sim := afterCycles (Z.to_nat maxCycles).

(** What follows the loop: the two ["complete"] events. *)
Definition conclude (st : Sim) : Sim :=
  let sum := reduce_sum (results st) in
  let st := onEvent h complete
    ("✅ Final: Generated " +:+ show (itemsGenerated st) +:+ ", Processed " +:+
     show (itemsProcessed st) +:+ ", Lost " +:+ show (itemsDropped st))
    (Some {[ "generated" := itemsGenerated st; "processed" := itemsProcessed st;
             "dropped" := itemsDropped st; "sum" := sum;
             "backpressureEvents" := backpressureEvents st ]}) st in
  if enableBackpressure o then
    onEvent h complete
      ("💡 Backpressure prevented data loss (" +:+ show (backpressureEvents st) +:+
       " blocks) - " +:+
       (if itemsDropped st =? 0 then "SUCCESS!" else "Some loss occurred"))
      None st
  else
    onEvent h complete
      ("💡 No backpressure: " +:+
       (if itemsDropped st >? 0
        then show (itemsDropped st) +:+ " items LOST to overflow!"
        else "No overflow (consumer kept up)"))
      None st.

(** The state at the [return]. *)
Definition finalSim : Sim := conclude afterLoop.

(** [return { processed: itemsProcessed, sum, backpressureEvents }] *)
Definition returned (st : Sim) : gmap string Z :=
  {[ "processed" := itemsProcessed st;
     "sum" := reduce_sum (results st);
     "backpressureEvents" := backpressureEvents st ]}.

(** The run: the value returned and the events the sink has received. *)
Definition runRealTimeStreamDemo : gmap string Z * list StreamEvent :=
  (returned finalSim, delivered finalSim).

End Run.

(** ** Predicates on the states of a run *)

(** The occupancy invariant: the buffer holds what was generated and
    neither processed nor dropped, and never more than [BUFFER_LIMIT]. *)
Record Accounted (st : Sim) : Prop := {
  acc_balance : bufferLength st = itemsGenerated st - itemsProcessed st - itemsDropped st;
  acc_limit : bufferLength st <= BUFFER_LIMIT;
  acc_target : itemsGenerated st <= TOTAL_ITEMS
}.

(** What the claims say of the occupancy of the buffer at one point. *)
Definition occupancyOk (st : Sim) : Prop :=
  bufferLength st = itemsGenerated st - itemsProcessed st - itemsDropped st /\
  0 <= bufferLength st /\
  itemsGenerated st >= itemsProcessed st + itemsDropped st /\
  bufferLength st <= 5.

(** No event of type [ty] has been delivered. *)
Definition Quiet (ty : StreamEventType) (st : Sim) : Prop :=
  Forall (fun e => type e <> ty) (delivered st).

(** After a cycle with a fast consumer: the buffer is empty again and
    nothing was dropped or blocked. *)
Record Drained (st : Sim) : Prop := {
  drained_buffer : buffer st = [];
  drained_dropped : itemsDropped st = 0;
  drained_blocks : backpressureEvents st = 0
}.

(** ** Runs without their clock *)

(** An event without its timestamp. *)
Definition untimed (e : StreamEvent) : StreamEventType * string * option (gmap string Z) :=
  (type e, message e, data e).

Definition stamp0 (e : StreamEvent) : StreamEvent :=
  mkEvent (type e) (message e) (data e) 0.

(** The state with every timestamp of the sink set to 0. *)
Definition retime (st : Sim) : Sim :=
  {| itemsGenerated := itemsGenerated st;
     itemsProcessed := itemsProcessed st;
     itemsDropped := itemsDropped st;
     backpressureEvents := backpressureEvents st;
     buffer := buffer st;
     results := results st;
     cycles := cycles st;
     delivered := map stamp0 (delivered st);
     randomCalls := randomCalls st;
     nowCalls := nowCalls st |}.

(** The host whose clock always answers 0. *)
Definition zeroClock (h : Host) : Host := mkHost (Math_random h) (fun _ => 0).

(** ** Sample inputs *)

Definition sampleRandom (k : nat) : Q := Qmake ((Z.of_nat k * 37 + 11) mod 100) 100.

Definition sampleHost : Host :=
  mkHost sampleRandom (fun k => 1700000000000 + 10 * Z.of_nat k).

(** The same random source read at a later hour. *)
Definition laterHost : Host :=
  mkHost sampleRandom (fun k => 1700003600000 + 10 * Z.of_nat k).

Definition normalOn : StreamDemoOptions := mkOptions normal true 5.
Definition slowOn : StreamDemoOptions := mkOptions slow true 5.
Definition normalOff : StreamDemoOptions := mkOptions normal false 5.
Definition fastOff : StreamDemoOptions := mkOptions fast false 5.

(** ** Further predicates on the states of a run *)

(** [value * 2], what the consumer makes of a value. *)
Definition transformed (value : Z) : Z := value * 2.

(** The calls of the host and the events delivered, counted against the
    counters of the loop (the 3 is for the events sent before the loop). *)
Record Tallied (st : Sim) : Prop := {
  tallied_random : Z.of_nat (randomCalls st) = itemsGenerated st;
  tallied_now : nowCalls st = length (delivered st);
  tallied_events :
    Z.of_nat (length (delivered st)) =
    3 + itemsGenerated st + itemsProcessed st + itemsDropped st + backpressureEvents st
}.

(** What an event tells of one value, read off its type and its data.  An
    event that generates a value is a ['transform'] event with a ["value"]
    and no ["transformed"]; one that processes a value is a ['transform']
    event with both; one that drops a value is an ['error'] event with a
    ["dropped"]. *)
Definition generatedValue (e : StreamEvent) : option Z :=
  match type e, data e with
  | transform, Some d =>
      match d !! "transformed" with
      | Some _ => None
      | None => d !! "value"
      end
  | _, _ => None
  end.

Definition processedValue (e : StreamEvent) : option Z :=
  match type e, data e with
  | transform, Some d =>
      match d !! "transformed" with
      | Some _ => d !! "value"
      | None => None
      end
  | _, _ => None
  end.

Definition droppedValue (e : StreamEvent) : option Z :=
  match type e, data e with
  | error, Some d => d !! "dropped"
  | _, _ => None
  end.

(** The value an event takes out of the buffer, processed or dropped. *)
Definition departedValue (e : StreamEvent) : option Z :=
  match processedValue e with
  | Some v => Some v
  | None => droppedValue e
  end.

(** The events account for the buffer and the results: the values the
    events generated are, in this order, the values the events took out of
    the buffer and then the content of the buffer; the results are the
    processed values, transformed, in the order of their events. *)
Record Logged (st : Sim) : Prop := {
  logged_buffer :
    omap generatedValue (delivered st) = omap departedValue (delivered st) ++ buffer st;
  logged_results :
    results st = map transformed (omap processedValue (delivered st))
}.

(** What an event says of the size of the buffer, if it says anything, is a
    size the buffer can have. *)
Definition bufferSizeOk (e : StreamEvent) : Prop :=
  forall (d : gmap string Z) (b : Z),
    data e = Some d -> d !! "bufferSize" = Some b -> 0 <= b <= BUFFER_LIMIT.

(** ** The hook that runs the demos: [hooks/useStreams.ts]

    The state of the hook is a [StreamState]; every [setStreamState(prev =>
    ...)] is the function it is given, applied to the state.  The two other
    demos of [runStreamDemo] run streams of the effect library: they are
    taken as parameters, by what the hook sees of them, a [DemoRun]. *)

Module UseStreams.

Inductive StreamDemoType : Type := csv | realtime | composition.

Record StreamState : Type := mkStreamState {
  streamLogs : list StreamEvent;
  streamDemo : StreamDemoType;
  processingSpeed : Speed;
  enableBackpressure : bool;
  batchSize : Z;
  isStreamRunning : bool
}.

(** The argument of [useState]. *)
Definition initialState : StreamState :=
  {| streamLogs := [];
     streamDemo := csv;
     processingSpeed := normal;
     enableBackpressure := true;
     batchSize := 10;
     isStreamRunning := false |}.

(** [arr.slice(0, n)] for [n >= 0]. *)
Definition slice0 {A : Type} (n : nat) (arr : list A) : list A := take n arr.

(** [str.includes(needle)] *)
Fixpoint includes (needle str : string) : bool :=
  String.prefix needle str ||
  match str with
  | EmptyString => false
  | String _ rest => includes needle rest
  end.

(** [onStreamEvent(event)]:
    [{ ...prev, streamLogs: [event, ...prev.streamLogs].slice(0, 100) }] *)
Definition onStreamEvent (event : StreamEvent) (prev : StreamState) : StreamState :=
  {| streamLogs := slice0 100 (event :: streamLogs prev);
     streamDemo := streamDemo prev;
     processingSpeed := processingSpeed prev;
     enableBackpressure := enableBackpressure prev;
     batchSize := batchSize prev;
     isStreamRunning := isStreamRunning prev |}.

(** The sink called once per event, in the order of the events. *)
Definition deliver (events : list StreamEvent) (s : StreamState) : StreamState :=
  fold_left (fun prev event => onStreamEvent event prev) events s.

(** [Partial<StreamState>]: the properties an update gives. *)
Record Updates : Type := mkUpdates {
  u_streamLogs : option (list StreamEvent);
  u_streamDemo : option StreamDemoType;
  u_processingSpeed : option Speed;
  u_enableBackpressure : option bool;
  u_batchSize : option Z;
  u_isStreamRunning : option bool
}.

(** [updateStreamState(updates)]: [{ ...prev, ...updates }] *)
Definition updateStreamState (updates : Updates) (prev : StreamState) : StreamState :=
  {| streamLogs := default (streamLogs prev) (u_streamLogs updates);
     streamDemo := default (streamDemo prev) (u_streamDemo updates);
     processingSpeed := default (processingSpeed prev) (u_processingSpeed updates);
     enableBackpressure := default (enableBackpressure prev) (u_enableBackpressure updates);
     batchSize := default (batchSize prev) (u_batchSize updates);
     isStreamRunning := default (isStreamRunning prev) (u_isStreamRunning updates) |}.

(** What a demo returns: a number (the CSV demo) or an object of numbers. *)
Inductive DemoResult : Type :=
  | Number (n : Z)
  | Object (fields : gmap string Z).

(** What the hook sees of [Effect.runPromise(demo(options))]: the events
    sent to [onEvent], the number of times the demo read [Date.now()], and
    how the promise settled: with the result, or rejected with an error, of
    which [String(error)] is kept. *)
Record DemoRun : Type := mkDemoRun {
  sent : list StreamEvent;
  clockReads : nat;
  settled : DemoResult + string
}.

Definition realtimeRun (options : StreamDemoOptions) (h : Host) : DemoRun :=
  {| sent := (runRealTimeStreamDemo options h).2;
     clockReads := nowCalls (finalSim options h);
     settled := inl (Object (runRealTimeStreamDemo options h).1) |}.

Section RunStreamDemo.

Variable runCSVProcessingDemo : StreamDemoOptions -> Host -> DemoRun.
Variable runStreamCompositionDemo : StreamDemoOptions -> Host -> DemoRun.

(** [runStreamDemo()], called in the state [streamState]: the value the
    promise resolves to ([None] for [undefined]) and the state it leaves. *)
Definition runStreamDemo (h : Host) (streamState : StreamState)
    : option DemoResult * StreamState :=
  let s :=
    {| streamLogs := [];
       streamDemo := streamDemo streamState;
       processingSpeed := processingSpeed streamState;
       enableBackpressure := enableBackpressure streamState;
       batchSize := batchSize streamState;
       isStreamRunning := true |} in
  let options :=
    mkOptions (processingSpeed streamState) (enableBackpressure streamState)
              (batchSize streamState) in
  let run :=
    match streamDemo streamState with
    | csv => runCSVProcessingDemo options h
    | realtime => realtimeRun options h
    | composition => runStreamCompositionDemo options h
    end in
  let s := deliver (sent run) s in
  let '(result, s) :=
    match settled run with
    | inl result => (Some result, s)
    | inr err =>
        (None,
         if negb (includes "Interrupted" err)
         then onStreamEvent
                (mkEvent error ("❌ Error: " +:+ err) None (Date_now h (clockReads run))) s
         else s)
    end in
  (result,
   {| streamLogs := streamLogs s;
      streamDemo := streamDemo s;
      processingSpeed := processingSpeed s;
      enableBackpressure := enableBackpressure s;
      batchSize := batchSize s;
      isStreamRunning := false |}).

End RunStreamDemo.

End UseStreams.

(** ** The CSV lines of [runCSVProcessingDemo] and their parsing

    [generateCSVData] reads [Math.random()] three times and
    [new Date().toISOString()] once per row; the second reading is modelled
    like the first, by the answer of its k-th call.  As in [generate], the
    product of a draw by a constant is taken exactly; the properties below
    hold whatever index or value a draw gives.  Strings are sequences of
    bytes (UTF-8). *)

Module Csv.

Definition headers : list string := ["id"; "name"; "status"; "value"; "timestamp"].
Definition statuses : list string := ["active"; "inactive"; "pending"].
Definition names : list string :=
  ["Alice"; "Bob"; "Charlie"; "David"; "Eve"; "Frank"; "Grace"; "Henry"].

(** [arr[i]] for an integer [i]: [undefined] outside of the array. *)
Definition at_index (arr : list string) (i : Z) : option string :=
  if i <? 0 then None else arr !! Z.to_nat i.

(** [arr.join(sep)]: the elements are written as strings, [undefined] as the
    empty string (numbers are given by their decimal writing). *)
Fixpoint join (sep : string) (arr : list (option string)) : string :=
  match arr with
  | [] => ""
  | [x] => default "" x
  | x :: rest => default "" x +:+ sep +:+ join sep rest
  end.

(** [str.split(sep)] for a separator of one character. *)
Fixpoint split (sep : ascii) (str : string) : list string :=
  match str with
  | EmptyString => [EmptyString]
  | String c rest =>
      if Ascii.eqb c sep then EmptyString :: split sep rest
      else match split sep rest with
           | [] => [String c EmptyString]
           | field :: fields => String c field :: fields
           end
  end.

Definition byte (c : ascii) : N := N_of_ascii c.

(** The white space of one byte: TAB, LF, VT, FF, CR, SP. *)
Definition asciiWhiteSpace (c : ascii) : bool :=
  ((9 <=? byte c) && (byte c <=? 13) || (byte c =? 32))%N.

(** The white space of three bytes: U+1680, U+2000 to U+200A, U+2028,
    U+2029, U+202F, U+205F, U+3000, U+FEFF. *)
Definition wideWhiteSpace (b1 b2 b3 : N) : bool :=
  (if b1 =? 225 then (b2 =? 154) && (b3 =? 128)
   else if b1 =? 226 then
     (b2 =? 128) && ((128 <=? b3) && (b3 <=? 138) || (b3 =? 168) || (b3 =? 169) || (b3 =? 175))
     || (b2 =? 129) && (b3 =? 159)
   else if b1 =? 227 then (b2 =? 128) && (b3 =? 128)
   else if b1 =? 239 then (b2 =? 187) && (b3 =? 191)
   else false)%N.

(** The string without its leading white space (of two bytes: U+00A0). *)
Fixpoint trimStart (str : string) : string :=
  match str with
  | EmptyString => EmptyString
  | String c1 r1 =>
      if asciiWhiteSpace c1 then trimStart r1 else
      match r1 with
      | EmptyString => str
      | String c2 r2 =>
          if ((byte c1 =? 194) && (byte c2 =? 160))%N then trimStart r2 else
          match r2 with
          | EmptyString => str
          | String c3 r3 =>
              if wideWhiteSpace (byte c1) (byte c2) (byte c3) then trimStart r3 else str
          end
      end
  end.

Definition decDigit (c : ascii) : option Z :=
  let b := Z.of_N (byte c) in
  if (48 <=? b) && (b <=? 57) then Some (b - 48) else None.

Definition hexDigit (c : ascii) : option Z :=
  let b := Z.of_N (byte c) in
  if (48 <=? b) && (b <=? 57) then Some (b - 48)
  else if (97 <=? b) && (b <=? 102) then Some (b - 87)
  else if (65 <=? b) && (b <=? 70) then Some (b - 55)
  else None.

(** The value of the longest prefix of digits; [acc] is [None] as long as
    no digit was read. *)
Fixpoint digitsValue (radix : Z) (digit : ascii -> option Z) (str : string)
    (acc : option Z) : option Z :=
  match str with
  | EmptyString => acc
  | String c rest =>
      match digit c with
      | Some d => digitsValue radix digit rest (Some (radix * default 0 acc + d))
      | None => acc
      end
  end.

(** [parseInt] of what follows the sign: in base 16 after [0x] or [0X], in
    base 10 otherwise. *)
Definition parseMagnitude (str : string) : option Z :=
  match str with
  | String "0" (String c rest) =>
      if (Ascii.eqb c "x" || Ascii.eqb c "X")%char
      then digitsValue 16 hexDigit rest None
      else digitsValue 10 decDigit str None
  | _ => digitsValue 10 decDigit str None
  end.

(** [parseInt(str)], [None] for [NaN].  The value is the exact integer; the
    JavaScript number is its nearest double, the same below 2^53. *)
Definition parseInt (str : string) : option Z :=
  match trimStart str with
  | String "-" rest => Z.opp <$> parseMagnitude rest
  | String "+" rest => parseMagnitude rest
  | rest => parseMagnitude rest
  end.

(** [parseInt(x)] where [x] may be [undefined], written ["undefined"]. *)
Definition parseIntOf (x : option string) : option Z := parseInt (default "undefined" x).

(** The rows pushed by the [for] loop from row [i] on, [remaining] rows
    being left, after [randomCalls] calls of [Math.random()] and [dateCalls]
    calls of [new Date().toISOString()]. *)
Fixpoint generateRows (h : Host) (toISOString : nat -> string)
    (remaining : nat) (i : Z) (randomCalls dateCalls : nat) : list string :=
  match remaining with
  | O => []
  | S remaining' =>
      let name :=
        at_index names
          (Math_floor (Qmult (Math_random h randomCalls)
                             (inject_Z (Z.of_nat (length names))))) in
      let status :=
        at_index statuses
          (Math_floor (Qmult (Math_random h (S randomCalls))
                             (inject_Z (Z.of_nat (length statuses))))) in
      let value :=
        Math_floor (Qmult (Math_random h (S (S randomCalls))) (inject_Z 1000)) in
      let row := [Some (show i); name; status; Some (show value);
                  Some (toISOString dateCalls)] in
      join "," row ::
      generateRows h toISOString remaining' (i + 1) (S (S (S randomCalls))) (S dateCalls)
  end.

Definition generateCSVData (h : Host) (toISOString : nat -> string) (rows : nat)
    : list string :=
  join "," (Some <$> headers) :: generateRows h toISOString rows 1 0 0.

(** A parsed row: [{ id: parseInt(id), name, status, value: parseInt(value) }],
    with [None] for [NaN] and for [undefined]. *)
Record Row : Type := mkRow {
  id : option Z;
  name : option string;
  status : option string;
  value : option Z
}.

(** The function of the first [Stream.map]: [const [id, name, status, value]
    = line.split(',')] and the record above. *)
Definition parseRow (line : string) : Row :=
  let fields := split "," line in
  {| id := parseIntOf (fields !! 0%nat);
     name := fields !! 1%nat;
     status := fields !! 2%nat;
     value := parseIntOf (fields !! 3%nat) |}.

(** The function of [Stream.filter]: [row.status === 'active']. *)
Definition isActive (row : Row) : bool :=
  match status row with
  | Some s => String.eqb s "active"
  | None => false
  end.

(** No character of [str] is [sep]. *)
Fixpoint without (sep : ascii) (str : string) : bool :=
  match str with
  | EmptyString => true
  | String c rest => negb (Ascii.eqb c sep) && without sep rest
  end.

End Csv.

Definition sampleDates (k : nat) : string := "2024-01-01T00:00:00.000Z".

(** An event of type ['backpressure'] says that the buffer is full. *)
Definition blockedWhenFull (e : StreamEvent) : Prop :=
  type e = backpressure -> data e = Some {[ "bufferSize" := BUFFER_LIMIT ]}.

(** ** Tactics *)

(** The cases of a phase. *)
Ltac phase_cases :=
  repeat match goal with
  | |- context [if ?b then _ else _] => destruct b eqn:?
  | |- context [match shift ?l with _ => _ end] => destruct l eqn:?; simpl
  end.

Ltac read_tests :=
  repeat match goal with
  | H : (_ <? _) = true |- _ => apply Z.ltb_lt in H
  | H : (_ <? _) = false |- _ => apply Z.ltb_ge in H
  | H : (_ >? _) = true |- _ => rewrite Z.gtb_ltb in H; apply Z.ltb_lt in H
  | H : (_ >? _) = false |- _ => rewrite Z.gtb_ltb in H; apply Z.ltb_ge in H
  | H : (_ >=? _) = true |- _ => rewrite Z.geb_leb in H; apply Z.leb_le in H
  | H : (_ >=? _) = false |- _ => rewrite Z.geb_leb in H; apply Z.leb_gt in H
  | H : (_ =? _) = true |- _ => apply Z.eqb_eq in H
  | H : (_ =? _) = false |- _ => apply Z.eqb_neq in H
  | H : (_ && _) = true |- _ => apply andb_true_iff in H; destruct H
  end.

(** ** Reading the tests of the loop *)

Lemma ceil_producer : Math_ceil (div producerInterval 10) = 3.
Proof. reflexivity. Qed.

Lemma ceil_consumer (sp : Speed) :
  Math_ceil (div (processDelay sp) 10) = match sp with slow => 20 | normal => 5 | fast => 1 end.
Proof. destruct sp; reflexivity. Qed.

Lemma maxCycles_eq : maxCycles = 60.
Proof. reflexivity. Qed.

Lemma loopTest_true (st : Sim) :
  loopTest st = true <-> cycles st < maxCycles /\ itemsProcessed st < TOTAL_ITEMS.
Proof. unfold loopTest. rewrite andb_true_iff, !Z.ltb_lt. tauto. Qed.

Lemma loopTest_false (st : Sim) :
  loopTest st = false <-> maxCycles <= cycles st \/ TOTAL_ITEMS <= itemsProcessed st.
Proof. unfold loopTest. rewrite andb_false_iff, !Z.ltb_ge. tauto. Qed.

(** A property kept by the body of the loop holds after any number of
    iterations. *)
Lemma whileLoop_keeps (o : StreamDemoOptions) (h : Host) (P : Sim -> Prop) :
  (forall st, P st -> loopTest st = true -> P (loopBody o h st)) ->
  forall n st, P st -> P (whileLoop o h n st).
Proof.
  intros Hbody n. induction n as [|n IH]; intros st Hst; simpl; [exact Hst|].
  destruct (loopTest st) eqn:Ht; [|exact Hst].
  apply IH, Hbody; assumption.
Qed.

(** Once the test fails the loop does nothing more. *)
Lemma whileLoop_stopped (o : StreamDemoOptions) (h : Host) (n : nat) (st : Sim) :
  loopTest st = false -> whileLoop o h n st = st.
Proof. intros Ht. destruct n; simpl; [|rewrite Ht]; reflexivity. Qed.

Lemma whileLoop_add (o : StreamDemoOptions) (h : Host) (n m : nat) (st : Sim) :
  whileLoop o h (n + m) st = whileLoop o h m (whileLoop o h n st).
Proof.
  revert st. induction n as [|n IH]; intros st; simpl; [reflexivity|].
  destruct (loopTest st) eqn:Ht; [apply IH|].
  symmetry. apply whileLoop_stopped, Ht.
Qed.

(** ** What each phase does to the counters and the buffer *)

Lemma bufferLength_nonneg (st : Sim) : 0 <= bufferLength st.
Proof. unfold bufferLength. lia. Qed.

Lemma Accounted_fresh : Accounted freshSim.
Proof. split; cbv; congruence. Qed.

Lemma Accounted_onEvent h ty msg d st : Accounted st -> Accounted (onEvent h ty msg d st).
Proof. intros [? ? ?]. split; assumption. Qed.

Lemma Accounted_announce o h st : Accounted st -> Accounted (announce o h st).
Proof. intros H. unfold announce. repeat apply Accounted_onEvent. exact H. Qed.

Lemma Accounted_nextCycle st : Accounted st -> Accounted (nextCycle st).
Proof. intros [? ? ?]. split; assumption. Qed.

Lemma Accounted_producerPhase o h st : Accounted st -> Accounted (producerPhase o h st).
Proof.
  intros [Hb Hl Ht].
  unfold producerPhase, evictIfFull, shouldGenerate, generatedEvent, generatedEventFull.
  unfold bufferLength, BUFFER_LIMIT, TOTAL_ITEMS in *.
  phase_cases; read_tests; split; unfold bufferLength, BUFFER_LIMIT, TOTAL_ITEMS; simpl in *;
    rewrite ?length_app in *; simpl in *; try lia.
Qed.

Lemma Accounted_consumerPhase o h st : Accounted st -> Accounted (consumerPhase o h st).
Proof.
  intros [Hb Hl Ht]. unfold consumerPhase, shouldConsume.
  unfold bufferLength, BUFFER_LIMIT, TOTAL_ITEMS in *.
  phase_cases; read_tests; split; unfold bufferLength, BUFFER_LIMIT, TOTAL_ITEMS; simpl in *;
    rewrite ?length_app in *; simpl in *; try lia.
Qed.

Lemma Accounted_loopBody o h st : Accounted st -> Accounted (loopBody o h st).
Proof.
  intros H. unfold loopBody.
  apply Accounted_consumerPhase, Accounted_producerPhase, Accounted_nextCycle, H.
Qed.

Lemma Accounted_afterCycles o h n : Accounted (afterCycles o h n).
Proof.
  unfold afterCycles. apply whileLoop_keeps.
  - intros st H _. apply Accounted_loopBody, H.
  - apply Accounted_announce, Accounted_fresh.
Qed.

Lemma Accounted_conclude o h st : Accounted st -> Accounted (conclude o h st).
Proof.
  intros H. unfold conclude. destruct (enableBackpressure o); repeat apply Accounted_onEvent; exact H.
Qed.

Lemma Accounted_occupancyOk st : Accounted st -> occupancyOk st.
Proof.
  intros [Hb Hl Ht]. pose proof (bufferLength_nonneg st). unfold occupancyOk.
  change BUFFER_LIMIT with 5 in Hl. lia.
Qed.

(** ** Events of a given type *)

Lemma Quiet_onEvent h ty ty' msg d st :
  ty' <> ty -> Quiet ty st -> Quiet ty (onEvent h ty' msg d st).
Proof.
  intros Hne Hq. unfold Quiet in *. simpl. apply Forall_app. split; [exact Hq|].
  constructor; [exact Hne|constructor].
Qed.

Lemma Quiet_fresh ty : Quiet ty freshSim.
Proof. constructor. Qed.

Lemma Quiet_announce o h ty st : ty <> transform -> Quiet ty st -> Quiet ty (announce o h st).
Proof.
  intros Hne Hq. unfold announce. repeat apply Quiet_onEvent; auto.
Qed.

Lemma Quiet_conclude o h ty st : ty <> complete -> Quiet ty st -> Quiet ty (conclude o h st).
Proof.
  intros Hne Hq. unfold conclude.
  destruct (enableBackpressure o); repeat apply Quiet_onEvent; auto.
Qed.

Lemma Quiet_consumerPhase o h ty st :
  ty <> transform -> Quiet ty st -> Quiet ty (consumerPhase o h st).
Proof.
  intros Hne Hq. unfold consumerPhase. phase_cases; auto.
  apply Quiet_onEvent; auto.
Qed.

(** *** With backpressure: nothing is dropped *)

Lemma producerPhase_on_dropped o h st :
  enableBackpressure o = true -> itemsDropped (producerPhase o h st) = itemsDropped st.
Proof. intros Hon. unfold producerPhase. rewrite Hon. phase_cases; reflexivity. Qed.

Lemma producerPhase_on_buffer o h st :
  enableBackpressure o = true -> exists pushed, buffer (producerPhase o h st) = buffer st ++ pushed.
Proof.
  intros Hon. unfold producerPhase. rewrite Hon. phase_cases; simpl.
  - eexists. reflexivity.
  - exists []. symmetry. apply app_nil_r.
  - exists []. symmetry. apply app_nil_r.
Qed.

Lemma producerPhase_on_quiet o h st :
  enableBackpressure o = true -> Quiet error st -> Quiet error (producerPhase o h st).
Proof.
  intros Hon Hq. unfold producerPhase, generatedEvent. rewrite Hon.
  phase_cases; simpl; auto; apply Quiet_onEvent; auto; discriminate.
Qed.

Lemma consumerPhase_dropped o h st : itemsDropped (consumerPhase o h st) = itemsDropped st.
Proof. unfold consumerPhase. phase_cases; reflexivity. Qed.

Lemma conclude_counters o h st :
  itemsGenerated (conclude o h st) = itemsGenerated st /\
  itemsProcessed (conclude o h st) = itemsProcessed st /\
  itemsDropped (conclude o h st) = itemsDropped st /\
  backpressureEvents (conclude o h st) = backpressureEvents st /\
  buffer (conclude o h st) = buffer st /\
  results (conclude o h st) = results st /\
  cycles (conclude o h st) = cycles st.
Proof. unfold conclude. destruct (enableBackpressure o); repeat split. Qed.

Lemma on_afterCycles o h n :
  enableBackpressure o = true ->
  itemsDropped (afterCycles o h n) = 0 /\ Quiet error (afterCycles o h n).
Proof.
  intros Hon. unfold afterCycles. apply whileLoop_keeps.
  - intros st [Hd Hq] _. unfold loopBody. split.
    + rewrite consumerPhase_dropped, producerPhase_on_dropped by exact Hon. exact Hd.
    + apply Quiet_consumerPhase; [discriminate|].
      apply producerPhase_on_quiet; [exact Hon|exact Hq].
  - split; [reflexivity|]. apply Quiet_announce; [discriminate|apply Quiet_fresh].
Qed.

(** *** Without backpressure: the producer is never blocked *)

Lemma producerPhase_off_blocks o h st :
  enableBackpressure o = false ->
  backpressureEvents (producerPhase o h st) = backpressureEvents st.
Proof.
  intros Hoff. unfold producerPhase, evictIfFull. rewrite Hoff. phase_cases; reflexivity.
Qed.

Lemma producerPhase_off_quiet o h st :
  enableBackpressure o = false -> Quiet backpressure st -> Quiet backpressure (producerPhase o h st).
Proof.
  intros Hoff Hq. unfold producerPhase, evictIfFull, generatedEventFull. rewrite Hoff.
  phase_cases; simpl; auto; repeat (apply Quiet_onEvent; [discriminate|]); auto.
Qed.

Lemma consumerPhase_blocks o h st :
  backpressureEvents (consumerPhase o h st) = backpressureEvents st.
Proof. unfold consumerPhase. phase_cases; reflexivity. Qed.

Lemma off_afterCycles o h n :
  enableBackpressure o = false ->
  backpressureEvents (afterCycles o h n) = 0 /\ Quiet backpressure (afterCycles o h n).
Proof.
  intros Hoff. unfold afterCycles. apply whileLoop_keeps.
  - intros st [Hd Hq] _. unfold loopBody. split.
    + rewrite consumerPhase_blocks, producerPhase_off_blocks by exact Hoff. exact Hd.
    + apply Quiet_consumerPhase; [discriminate|].
      apply producerPhase_off_quiet; [exact Hoff|exact Hq].
  - split; [reflexivity|]. apply Quiet_announce; [discriminate|apply Quiet_fresh].
Qed.

(** ** The length of a run *)

Lemma cycles_producerPhase o h st : cycles (producerPhase o h st) = cycles st.
Proof. unfold producerPhase, evictIfFull. phase_cases; reflexivity. Qed.

Lemma cycles_consumerPhase o h st : cycles (consumerPhase o h st) = cycles st.
Proof. unfold consumerPhase. phase_cases; reflexivity. Qed.

Lemma cycles_loopBody o h st : cycles (loopBody o h st) = cycles st + 1.
Proof. unfold loopBody. rewrite cycles_consumerPhase, cycles_producerPhase. reflexivity. Qed.

(** Each iteration that runs counts one cycle. *)
Lemma whileLoop_progress o h n st :
  loopTest (whileLoop o h n st) = false \/
  cycles (whileLoop o h n st) = cycles st + Z.of_nat n.
Proof.
  revert st. induction n as [|n IH]; intros st.
  - right. simpl. lia.
  - cbn [whileLoop]. destruct (loopTest st) eqn:Ht.
    + destruct (IH (loopBody o h st)) as [Hs|Hc]; [left; exact Hs|right].
      rewrite Hc, cycles_loopBody. lia.
    + left. exact Ht.
Qed.

Lemma whileLoop_cycles_le o h n st :
  cycles st <= cycles (whileLoop o h n st) <= cycles st + Z.of_nat n.
Proof.
  revert st. induction n as [|n IH]; intros st; cbn [whileLoop]; [lia|].
  destruct (loopTest st); [|lia].
  specialize (IH (loopBody o h st)). rewrite cycles_loopBody in IH. lia.
Qed.

Lemma cycles_afterCycles o h n :
  0 <= cycles (afterCycles o h n) <= maxCycles /\
  cycles (afterCycles o h n) <= Z.of_nat n.
Proof.
  unfold afterCycles. split.
  - apply whileLoop_keeps.
    + intros st Hc Ht. apply loopTest_true in Ht. rewrite cycles_loopBody. lia.
    + simpl. rewrite maxCycles_eq. lia.
  - pose proof (whileLoop_cycles_le o h n (announce o h freshSim)) as H.
    simpl in H. lia.
Qed.

(** After [maxCycles] iterations the test of the loop is false. *)
Lemma loop_exits o h : loopTest (afterLoop o h) = false.
Proof.
  unfold afterLoop, afterCycles.
  destruct (whileLoop_progress o h (Z.to_nat maxCycles) (announce o h freshSim)) as [Hs|Hc];
    [exact Hs|].
  apply loopTest_false. left. rewrite Hc. simpl. rewrite maxCycles_eq. lia.
Qed.

Lemma afterCycles_eq o h n : afterCycles o h n = whileLoop o h n (announce o h freshSim).
Proof. reflexivity. Qed.

Lemma afterLoop_eq o h : afterLoop o h = afterCycles o h (Z.to_nat maxCycles).
Proof. reflexivity. Qed.

Lemma afterCycles_beyond o h k :
  afterCycles o h (Z.to_nat maxCycles + k) = afterLoop o h.
Proof.
  rewrite afterLoop_eq, !afterCycles_eq, whileLoop_add.
  apply whileLoop_stopped.
  rewrite <- afterCycles_eq, <- afterLoop_eq. apply loop_exits.
Qed.

(** ** A fast consumer empties the buffer in every cycle *)

Lemma Drained_onEvent h ty msg d st : Drained st -> Drained (onEvent h ty msg d st).
Proof. intros [? ? ?]. split; assumption. Qed.

Lemma Drained_start o h : Drained (announce o h freshSim).
Proof. split; reflexivity. Qed.

Lemma fast_producerPhase o h st :
  Drained st ->
  bufferLength (producerPhase o h (nextCycle st)) <= 1 /\
  itemsDropped (producerPhase o h (nextCycle st)) = 0 /\
  backpressureEvents (producerPhase o h (nextCycle st)) = 0.
Proof.
  intros [Hb Hd Hp]. unfold producerPhase, evictIfFull, bufferLength. simpl. rewrite Hb. simpl.
  phase_cases; simpl; rewrite ?Hb; simpl; repeat split; try assumption; try lia;
    discriminate.
Qed.

Lemma fast_loopBody o h st :
  processingSpeed o = fast -> Drained st -> Drained (loopBody o h st).
Proof.
  intros Hf Hdr. destruct (fast_producerPhase o h st Hdr) as (Hlen & Hd & Hp).
  unfold loopBody. set (mid := producerPhase o h (nextCycle st)) in *.
  unfold consumerPhase, shouldConsume, consumerDelay. rewrite Hf.
  change (Math_ceil (div (processDelay fast) 10)) with 1. rewrite Z.rem_1_r.
  unfold bufferLength in *.
  destruct (buffer mid) as [|x [|y rest]] eqn:Hbuf; simpl in *.
  - split; assumption.
  - apply Drained_onEvent. split; simpl; first [assumption|reflexivity].
  - lia.
Qed.

Lemma fast_afterCycles o h n :
  processingSpeed o = fast -> Drained (afterCycles o h n).
Proof.
  intros Hf. unfold afterCycles. apply whileLoop_keeps.
  - intros st Hd _. apply fast_loopBody; assumption.
  - apply Drained_start.
Qed.

Lemma speed_of_delay o :
  consumerDelay o < producerInterval <-> processingSpeed o = fast.
Proof.
  unfold consumerDelay, producerInterval. destruct (processingSpeed o); simpl; split;
    intros H; try reflexivity; try discriminate; lia.
Qed.

(** ** What a run owes to the clock *)

Lemma retime_onEvent h ty msg d st :
  retime (onEvent h ty msg d st) = onEvent (zeroClock h) ty msg d (retime st).
Proof. unfold retime, onEvent. simpl. rewrite map_app. reflexivity. Qed.

Lemma retime_announce o h st :
  retime (announce o h st) = announce o (zeroClock h) (retime st).
Proof. unfold announce. rewrite !retime_onEvent. reflexivity. Qed.

Lemma retime_evictIfFull h st :
  retime (evictIfFull h st) = evictIfFull (zeroClock h) (retime st).
Proof.
  unfold evictIfFull, bufferLength. cbn [retime buffer].
  destruct (_ >=? _); [|reflexivity].
  destruct (buffer st) as [|x rest]; [reflexivity|]. cbn [shift].
  rewrite retime_onEvent. reflexivity.
Qed.

Lemma retime_producerPhase o h st :
  retime (producerPhase o h st) = producerPhase o (zeroClock h) (retime st).
Proof.
  unfold producerPhase. change (shouldGenerate (retime st)) with (shouldGenerate st).
  change (bufferLength (retime st)) with (bufferLength st).
  destruct (shouldGenerate st); [|reflexivity].
  destruct (enableBackpressure o).
  - destruct (_ <? _); cbn [generate]; unfold generatedEvent;
      rewrite retime_onEvent; reflexivity.
  - rewrite <- retime_evictIfFull. cbn [generate]. unfold generatedEventFull.
    rewrite retime_onEvent. reflexivity.
Qed.

Lemma retime_consumerPhase o h st :
  retime (consumerPhase o h st) = consumerPhase o (zeroClock h) (retime st).
Proof.
  unfold consumerPhase, shouldConsume, bufferLength.
  cbn [retime buffer cycles].
  phase_cases; rewrite ?retime_onEvent; reflexivity.
Qed.

Lemma retime_loopBody o h st :
  retime (loopBody o h st) = loopBody o (zeroClock h) (retime st).
Proof. unfold loopBody. rewrite retime_consumerPhase, retime_producerPhase. reflexivity. Qed.

Lemma retime_whileLoop o h n st :
  retime (whileLoop o h n st) = whileLoop o (zeroClock h) n (retime st).
Proof.
  revert st. induction n as [|n IH]; intros st; cbn [whileLoop]; [reflexivity|].
  change (loopTest (retime st)) with (loopTest st).
  destruct (loopTest st); [|reflexivity].
  rewrite IH, retime_loopBody. reflexivity.
Qed.

Lemma retime_conclude o h st :
  retime (conclude o h st) = conclude o (zeroClock h) (retime st).
Proof.
  unfold conclude. destruct (enableBackpressure o); rewrite !retime_onEvent; reflexivity.
Qed.

Lemma retime_finalSim o h : retime (finalSim o h) = finalSim o (zeroClock h).
Proof.
  unfold finalSim, afterLoop, afterCycles.
  rewrite retime_conclude, retime_whileLoop, retime_announce. reflexivity.
Qed.

Lemma untimed_retime st : map untimed (delivered (retime st)) = map untimed (delivered st).
Proof.
  simpl. induction (delivered st) as [|e l IH]; simpl; [reflexivity|].
  rewrite IH. reflexivity.
Qed.

Lemma returned_retime st : returned (retime st) = returned st.
Proof. reflexivity. Qed.

(** ** What is returned and what the summary event carries *)

Lemma returned_conclude o h st : returned (conclude o h st) = returned st.
Proof. unfold returned, conclude. destruct (enableBackpressure o); reflexivity. Qed.

Lemma returned_lookups st :
  returned st !! "processed" = Some (itemsProcessed st) /\
  returned st !! "sum" = Some (reduce_sum (results st)) /\
  returned st !! "backpressureEvents" = Some (backpressureEvents st) /\
  returned st !! "generated" = None /\
  returned st !! "dropped" = None.
Proof.
  unfold returned.
  generalize (itemsProcessed st), (reduce_sum (results st)), (backpressureEvents st).
  intros p s b. repeat split; vm_compute; reflexivity.
Qed.

Lemma conclude_delivered o h st :
  exists summary verdict,
    delivered (conclude o h st) = delivered st ++ [summary; verdict] /\
    type summary = complete /\ type verdict = complete /\
    data summary =
      Some {[ "generated" := itemsGenerated st; "processed" := itemsProcessed st;
              "dropped" := itemsDropped st; "sum" := reduce_sum (results st);
              "backpressureEvents" := backpressureEvents st ]}.
Proof.
  unfold conclude. destruct (enableBackpressure o); simpl;
    rewrite <- app_assoc; simpl; do 2 eexists; repeat split.
Qed.

Lemma producerPhase_at_target o h st :
  itemsGenerated st >= TOTAL_ITEMS -> producerPhase o h st = st.
Proof.
  intros Hge. unfold producerPhase, shouldGenerate.
  destruct (itemsGenerated st <? TOTAL_ITEMS) eqn:Hlt; [|reflexivity].
  apply Z.ltb_lt in Hlt. lia.
Qed.

(** ** The properties of the simulation *)

(** C1. With backpressure enabled, whatever the speed, nothing is ever
    dropped: the dropped count is 0 after every cycle and at the end of the
    run, no overflow event (type ['error']) reaches the sink, and the
    producer phase leaves the dropped count as it is and only ever appends
    to the buffer, so that items leave the buffer in the consumer phase
    only. *)
Theorem no_drop_with_backpressure (o : StreamDemoOptions) (h : Host) :
  enableBackpressure o = true ->
  (forall n, itemsDropped (afterCycles o h n) = 0) /\
  itemsDropped (finalSim o h) = 0 /\
  Forall (fun e => type e <> error) (runRealTimeStreamDemo o h).2 /\
  (forall st, itemsDropped (producerPhase o h st) = itemsDropped st /\
              exists pushed, buffer (producerPhase o h st) = buffer st ++ pushed).
Proof.
  intros Hon.
  pose proof (on_afterCycles o h (Z.to_nat maxCycles) Hon) as [Hd Hq].
  repeat split.
  - intros n. apply on_afterCycles, Hon.
  - unfold finalSim. destruct (conclude_counters o h (afterLoop o h)) as (_ & _ & -> & _).
    exact Hd.
  - unfold runRealTimeStreamDemo, finalSim. cbn [fst snd].
    apply (Quiet_conclude o h error); [discriminate|exact Hq].
  - apply producerPhase_on_dropped, Hon.
  - apply producerPhase_on_buffer, Hon.
Qed.

Lemma no_drop_with_backpressure_witness :
  itemsDropped (finalSim slowOn sampleHost) = 0.
Proof.
  exact (proj1 (proj2 (no_drop_with_backpressure slowOn sampleHost eq_refl))).
Defined.

(** C2. Under both policies and at every point of a run (after every
    cycle, between the two phases of a cycle, and at the end), the occupancy
    of the buffer is generated - processed - dropped, it is not negative
    (generated >= processed + dropped) and it is at most 5. *)
Theorem buffer_occupancy_accounted (o : StreamDemoOptions) (h : Host) (n : nat) :
  occupancyOk (afterCycles o h n) /\
  occupancyOk (producerPhase o h (nextCycle (afterCycles o h n))) /\
  occupancyOk (finalSim o h).
Proof.
  split; [|split]; apply Accounted_occupancyOk.
  - apply Accounted_afterCycles.
  - apply Accounted_producerPhase, Accounted_nextCycle, Accounted_afterCycles.
  - apply Accounted_conclude, Accounted_afterCycles.
Qed.

(** C3 (not met by the code).  With backpressure enabled and a consumer
    slower than the producer (the normal and slow speeds), the claim is that
    the run ends with backpressure events, nothing dropped and 20 items
    processed.  The run does end with backpressure events and nothing
    dropped, but it is stopped by its budget at the 60th cycle, after 12
    items at normal speed and 3 at slow speed, the test of the loop on the
    processed count still holding.  The budget alone is short: the body of
    the loop, run on from there (40 more cycles at normal speed, 340 at slow
    speed), processes the 20 items, still with nothing dropped. *)
Theorem budget_ends_run_before_target (o : StreamDemoOptions) (h : Host) :
  enableBackpressure o = true ->
  consumerDelay o > producerInterval ->
  backpressureEvents (finalSim o h) > 0 /\
  itemsDropped (finalSim o h) = 0 /\
  cycles (finalSim o h) = maxCycles /\
  itemsProcessed (finalSim o h) =
    match processingSpeed o with slow => 3 | normal => 12 | fast => 20 end /\
  itemsProcessed (finalSim o h) < TOTAL_ITEMS /\
  let more := match processingSpeed o with slow => 340%nat | _ => 40%nat end in
  let later := Nat.iter more (loopBody o h) (afterLoop o h) in
  itemsProcessed later = TOTAL_ITEMS /\
  itemsGenerated later = TOTAL_ITEMS /\
  itemsDropped later = 0 /\
  backpressureEvents later > 0 /\
  buffer later = [].
Proof.
  destruct o as [sp bp bs]. unfold consumerDelay, producerInterval. simpl. intros -> Hslow.
  destruct sp; simpl in Hslow; [| |lia]; vm_compute; repeat split; discriminate.
Qed.

Lemma budget_ends_run_before_target_witness :
  itemsProcessed (finalSim normalOn sampleHost) = 12 /\
  itemsProcessed (Nat.iter 40 (loopBody normalOn sampleHost) (afterLoop normalOn sampleHost)) =
    TOTAL_ITEMS.
Proof.
  pose proof (budget_ends_run_before_target normalOn sampleHost eq_refl eq_refl)
    as (_ & _ & _ & Hp & _ & Hl & _).
  split; [exact Hp|exact Hl].
Defined.

(** C4. With backpressure disabled and a consumer slower than the producer
    (the normal and slow speeds), the run ends with items dropped, with 20
    items generated and with at most 20 processed. *)
Theorem slow_consumer_without_backpressure (o : StreamDemoOptions) (h : Host) :
  enableBackpressure o = false ->
  consumerDelay o > producerInterval ->
  itemsDropped (finalSim o h) > 0 /\
  itemsGenerated (finalSim o h) = 20 /\
  itemsProcessed (finalSim o h) <= 20.
Proof.
  destruct o as [sp bp bs]. unfold consumerDelay, producerInterval. simpl. intros -> Hslow.
  destruct sp; simpl in Hslow; [| |lia];
    vm_compute; repeat split; try reflexivity; discriminate.
Qed.

Lemma slow_consumer_without_backpressure_witness :
  itemsDropped (finalSim normalOff sampleHost) > 0 /\
  itemsGenerated (finalSim normalOff sampleHost) = 20 /\
  itemsProcessed (finalSim normalOff sampleHost) <= 20.
Proof.
  exact (slow_consumer_without_backpressure normalOff sampleHost eq_refl eq_refl).
Defined.

(** C5. With a consumer faster than the producer (the fast speed), under
    either policy, the run ends with no backpressure event and nothing
    dropped: the buffer is empty after every cycle and holds at most one
    item between the two phases, so it never reaches the capacity of 5. *)
Theorem fast_consumer_no_pressure (o : StreamDemoOptions) (h : Host) :
  consumerDelay o < producerInterval ->
  backpressureEvents (finalSim o h) = 0 /\
  itemsDropped (finalSim o h) = 0 /\
  (runRealTimeStreamDemo o h).1 !! "backpressureEvents" = Some 0 /\
  (forall n, bufferLength (afterCycles o h n) < BUFFER_LIMIT /\
             bufferLength (producerPhase o h (nextCycle (afterCycles o h n))) < BUFFER_LIMIT).
Proof.
  intros Hfast. apply speed_of_delay in Hfast.
  destruct (fast_afterCycles o h (Z.to_nat maxCycles) Hfast) as [_ Hd Hp].
  destruct (conclude_counters o h (afterLoop o h)) as (_ & _ & Ed & Ep & _).
  assert (Hb : backpressureEvents (finalSim o h) = 0) by (unfold finalSim; rewrite Ep; exact Hp).
  split; [exact Hb|]. split; [unfold finalSim; rewrite Ed; exact Hd|].
  split.
  - unfold runRealTimeStreamDemo. cbn [fst snd].
    destruct (returned_lookups (finalSim o h)) as (_ & _ & -> & _). rewrite Hb. reflexivity.
  - intros n. pose proof (fast_afterCycles o h n Hfast) as Hdr.
    destruct (fast_producerPhase o h _ Hdr) as (Hlen & _).
    destruct Hdr as [Hbuf _ _]. unfold bufferLength at 1. rewrite Hbuf.
    unfold BUFFER_LIMIT. simpl. lia.
Qed.

Lemma fast_consumer_no_pressure_witness :
  backpressureEvents (finalSim fastOff sampleHost) = 0 /\
  itemsDropped (finalSim fastOff sampleHost) = 0.
Proof.
  pose proof (fast_consumer_no_pressure fastOff sampleHost eq_refl) as (Hb & Hd & _).
  split; [exact Hb|exact Hd].
Defined.

(** C6, as the code has it.  Two runs with the same options and the same
    random source deliver the same number of events, with the same type,
    message and data at each position, and return the same value, whatever
    the clock of each run; only the timestamps, which each run reads from
    [Date.now()], may differ. *)
Theorem runs_agree_up_to_timestamps
    (o : StreamDemoOptions) (random : nat -> Q) (clock1 clock2 : nat -> Z) :
  map untimed (runRealTimeStreamDemo o (mkHost random clock1)).2 =
  map untimed (runRealTimeStreamDemo o (mkHost random clock2)).2 /\
  (runRealTimeStreamDemo o (mkHost random clock1)).1 =
  (runRealTimeStreamDemo o (mkHost random clock2)).1.
Proof.
  assert (H : retime (finalSim o (mkHost random clock1)) =
              retime (finalSim o (mkHost random clock2))).
  { rewrite !retime_finalSim. reflexivity. }
  unfold runRealTimeStreamDemo. cbn [fst snd]. split.
  - rewrite <- (untimed_retime (finalSim o (mkHost random clock1))), H.
    apply untimed_retime.
  - rewrite <- (returned_retime (finalSim o (mkHost random clock1))), H.
    apply returned_retime.
Qed.

(** C6 as stated fails: two runs with the same options and the same random
    source, started at different hours, deliver different event sequences
    (the first event already differs, by its timestamp). *)
Lemma timestamps_differ_between_runs :
  Math_random sampleHost = Math_random laterHost /\
  (runRealTimeStreamDemo normalOn sampleHost).2 <>
  (runRealTimeStreamDemo normalOn laterHost).2.
Proof.
  split; [reflexivity|]. intros H.
  apply (f_equal (fun evs => timestamp <$> head evs)) in H.
  vm_compute in H. discriminate H.
Qed.

(** C7. The loop terminates: the budget is max(2 x 20, 60) = 60 cycles; after
    60 iterations at most the test of the loop is false, and running it
    longer changes nothing; the cycle count never exceeds 60 (nor the number
    of iterations allowed so far); and from a state where 20 items are
    processed the loop does not run again. *)
Theorem loop_terminates_within_budget (o : StreamDemoOptions) (h : Host) :
  maxCycles = Z.max (2 * TOTAL_ITEMS) 60 /\ maxCycles = 60 /\
  loopTest (afterLoop o h) = false /\
  (forall k, afterCycles o h (60 + k) = afterLoop o h) /\
  (forall n, cycles (afterCycles o h n) <= 60 /\ cycles (afterCycles o h n) <= Z.of_nat n) /\
  cycles (finalSim o h) <= 60 /\
  (forall st n, itemsProcessed st >= TOTAL_ITEMS -> whileLoop o h n st = st).
Proof.
  split; [reflexivity|]. split; [reflexivity|]. split; [apply loop_exits|].
  split; [intros k; apply (afterCycles_beyond o h k)|].
  split; [|split].
  - intros n. pose proof (cycles_afterCycles o h n) as H. rewrite maxCycles_eq in H. lia.
  - unfold finalSim.
    destruct (conclude_counters o h (afterLoop o h)) as (_ & _ & _ & _ & _ & _ & ->).
    pose proof (cycles_afterCycles o h (Z.to_nat maxCycles)) as H.
    rewrite maxCycles_eq in H. unfold afterLoop. rewrite maxCycles_eq. lia.
  - intros st n Hdone. apply whileLoop_stopped, loopTest_false. right. lia.
Qed.

Lemma loop_terminates_within_budget_witness :
  itemsProcessed (afterLoop fastOff sampleHost) >= TOTAL_ITEMS /\
  whileLoop fastOff sampleHost 7 (afterLoop fastOff sampleHost) = afterLoop fastOff sampleHost.
Proof.
  assert (H : itemsProcessed (afterLoop fastOff sampleHost) >= TOTAL_ITEMS)
    by (vm_compute; discriminate).
  split; [exact H|].
  destruct (loop_terminates_within_budget fastOff sampleHost) as (_ & _ & _ & _ & _ & _ & Hstop).
  exact (Hstop _ 7%nat H).
Defined.

(** C8, as the code has it.  The value returned has three properties, the
    processed count, the sum of the transformed values and the count of
    backpressure events; it has no property for the generated count or for
    the dropped count.  The five aggregates together are the data of the
    first of the two ['complete'] events that end the event sequence. *)
Theorem returned_record_and_summary (o : StreamDemoOptions) (h : Host) :
  (runRealTimeStreamDemo o h).1 =
    {[ "processed" := itemsProcessed (afterLoop o h);
       "sum" := reduce_sum (results (afterLoop o h));
       "backpressureEvents" := backpressureEvents (afterLoop o h) ]} /\
  (runRealTimeStreamDemo o h).1 !! "generated" = None /\
  (runRealTimeStreamDemo o h).1 !! "dropped" = None /\
  exists summary verdict,
    (runRealTimeStreamDemo o h).2 = delivered (afterLoop o h) ++ [summary; verdict] /\
    type summary = complete /\ type verdict = complete /\
    data summary =
      Some {[ "generated" := itemsGenerated (afterLoop o h);
              "processed" := itemsProcessed (afterLoop o h);
              "dropped" := itemsDropped (afterLoop o h);
              "sum" := reduce_sum (results (afterLoop o h));
              "backpressureEvents" := backpressureEvents (afterLoop o h) ]}.
Proof.
  unfold runRealTimeStreamDemo, finalSim. cbn [fst snd]. rewrite returned_conclude.
  destruct (returned_lookups (afterLoop o h)) as (_ & _ & _ & Hg & Hd).
  split; [reflexivity|]. split; [exact Hg|]. split; [exact Hd|].
  apply conclude_delivered.
Qed.

(** C8 as stated fails: the value returned by a run has no generated count
    and no dropped count. *)
Lemma returned_lacks_generated_and_dropped :
  (runRealTimeStreamDemo normalOff sampleHost).1 !! "generated" = None /\
  (runRealTimeStreamDemo normalOff sampleHost).1 !! "dropped" = None /\
  dom (runRealTimeStreamDemo normalOff sampleHost).1 =
    ({[ "processed"; "sum"; "backpressureEvents" ]} : gset string).
Proof.
  split; [vm_compute; reflexivity|]. split; [vm_compute; reflexivity|].
  unfold runRealTimeStreamDemo, returned. cbn [fst snd].
  rewrite !dom_insert_L, dom_singleton_L. set_solver.
Qed.

(** C9. Under both policies the generated count never exceeds the target of
    20, after every cycle, between the two phases of a cycle and at the end
    of the run; once 20 items are generated the producer phase does
    nothing. *)
Theorem generated_never_exceeds_target (o : StreamDemoOptions) (h : Host) :
  TOTAL_ITEMS = 20 /\
  (forall n, itemsGenerated (afterCycles o h n) <= TOTAL_ITEMS /\
             itemsGenerated (producerPhase o h (nextCycle (afterCycles o h n))) <= TOTAL_ITEMS) /\
  itemsGenerated (finalSim o h) <= TOTAL_ITEMS /\
  (forall st, itemsGenerated st >= TOTAL_ITEMS -> producerPhase o h st = st).
Proof.
  split; [reflexivity|]. split; [|split].
  - intros n. split.
    + apply Accounted_afterCycles.
    + apply Accounted_producerPhase, Accounted_nextCycle, Accounted_afterCycles.
  - apply Accounted_conclude, Accounted_afterCycles.
  - intros st. apply producerPhase_at_target.
Qed.

Lemma generated_never_exceeds_target_witness :
  itemsGenerated (afterLoop normalOff sampleHost) >= TOTAL_ITEMS /\
  producerPhase normalOff sampleHost (afterLoop normalOff sampleHost) =
  afterLoop normalOff sampleHost.
Proof.
  assert (H : itemsGenerated (afterLoop normalOff sampleHost) >= TOTAL_ITEMS)
    by (vm_compute; discriminate).
  split; [exact H|].
  exact (proj2 (proj2 (proj2 (generated_never_exceeds_target normalOff sampleHost))) _ H).
Defined.

(** C10. With backpressure disabled, the count of backpressure events is 0
    after every cycle and in the value returned, no event of type
    ['backpressure'] reaches the sink, and neither phase changes the
    counter: it is incremented in the branch with backpressure only. *)
Theorem no_backpressure_events_when_disabled (o : StreamDemoOptions) (h : Host) :
  enableBackpressure o = false ->
  (runRealTimeStreamDemo o h).1 !! "backpressureEvents" = Some 0 /\
  Forall (fun e => type e <> backpressure) (runRealTimeStreamDemo o h).2 /\
  (forall n, backpressureEvents (afterCycles o h n) = 0) /\
  (forall st, backpressureEvents (producerPhase o h st) = backpressureEvents st /\
              backpressureEvents (consumerPhase o h st) = backpressureEvents st).
Proof.
  intros Hoff.
  pose proof (off_afterCycles o h (Z.to_nat maxCycles) Hoff) as [Hb Hq].
  split; [|split; [|split]].
  - unfold runRealTimeStreamDemo, finalSim. cbn [fst snd]. rewrite returned_conclude.
    destruct (returned_lookups (afterLoop o h)) as (_ & _ & -> & _).
    unfold afterLoop. rewrite Hb. reflexivity.
  - unfold runRealTimeStreamDemo, finalSim. cbn [fst snd].
    apply (Quiet_conclude o h backpressure); [discriminate|exact Hq].
  - intros n. apply off_afterCycles, Hoff.
  - intros st. split; [apply producerPhase_off_blocks, Hoff|apply consumerPhase_blocks].
Qed.

Lemma no_backpressure_events_when_disabled_witness :
  (runRealTimeStreamDemo normalOff sampleHost).1 !! "backpressureEvents" = Some 0.
Proof.
  exact (proj1 (no_backpressure_events_when_disabled normalOff sampleHost eq_refl)).
Defined.

(** ** Calls of the host and events delivered *)

Lemma Tallied_start o h : Tallied (announce o h freshSim).
Proof. split; reflexivity. Qed.

Lemma Tallied_producerPhase o h st : Tallied st -> Tallied (producerPhase o h st).
Proof.
  intros [Hr Hn He].
  unfold producerPhase, evictIfFull, shouldGenerate, generatedEvent, generatedEventFull.
  phase_cases; split; simpl in *; rewrite ?length_app in *; simpl in *; lia.
Qed.

Lemma Tallied_consumerPhase o h st : Tallied st -> Tallied (consumerPhase o h st).
Proof.
  intros [Hr Hn He]. unfold consumerPhase, shouldConsume.
  phase_cases; split; simpl in *; rewrite ?length_app in *; simpl in *; lia.
Qed.

Lemma Tallied_nextCycle st : Tallied st -> Tallied (nextCycle st).
Proof. intros [? ? ?]. split; assumption. Qed.

Lemma Tallied_afterCycles o h n : Tallied (afterCycles o h n).
Proof.
  rewrite afterCycles_eq. apply whileLoop_keeps.
  - intros st H _. unfold loopBody.
    apply Tallied_consumerPhase, Tallied_producerPhase, Tallied_nextCycle, H.
  - apply Tallied_start.
Qed.

Lemma randomCalls_conclude o h st : randomCalls (conclude o h st) = randomCalls st.
Proof. unfold conclude. destruct (enableBackpressure o); reflexivity. Qed.

Lemma nowCalls_conclude o h st : nowCalls (conclude o h st) = S (S (nowCalls st)).
Proof. unfold conclude. destruct (enableBackpressure o); reflexivity. Qed.

Lemma length_delivered_conclude o h st :
  length (delivered (conclude o h st)) = S (S (length (delivered st))).
Proof.
  destruct (conclude_delivered o h st) as (e1 & e2 & -> & _).
  rewrite length_app. simpl. lia.
Qed.

(** ** The buffer size written in the events *)

Lemma Forall_delivered_onEvent (P : StreamEvent -> Prop) h ty msg d st :
  Forall P (delivered st) ->
  P (mkEvent ty msg d (Date_now h (nowCalls st))) ->
  Forall P (delivered (onEvent h ty msg d st)).
Proof.
  intros Hl He. cbn [onEvent delivered]. apply Forall_app. split; [exact Hl|].
  constructor; [exact He|constructor].
Qed.

Lemma bufferSizeOk_none ty msg ts : bufferSizeOk (mkEvent ty msg None ts).
Proof. intros d b Hd. discriminate Hd. Qed.

Lemma bufferSizeOk_generated ty msg ts (v b : Z) :
  0 <= b <= BUFFER_LIMIT ->
  bufferSizeOk (mkEvent ty msg (Some {[ "value" := v; "bufferSize" := b ]}) ts).
Proof.
  intros Hb d b' Hd Hl. injection Hd as <-.
  assert (E : ({[ "value" := v; "bufferSize" := b ]} : gmap string Z) !! "bufferSize" = Some b)
    by (vm_compute; reflexivity).
  rewrite E in Hl. injection Hl as <-. exact Hb.
Qed.

Lemma bufferSizeOk_blocked ty msg ts (b : Z) :
  0 <= b <= BUFFER_LIMIT ->
  bufferSizeOk (mkEvent ty msg (Some {[ "bufferSize" := b ]}) ts).
Proof.
  intros Hb d b' Hd Hl. injection Hd as <-.
  assert (E : ({[ "bufferSize" := b ]} : gmap string Z) !! "bufferSize" = Some b)
    by (vm_compute; reflexivity).
  rewrite E in Hl. injection Hl as <-. exact Hb.
Qed.

Lemma bufferSizeOk_overflow ty msg ts (x t : Z) :
  bufferSizeOk (mkEvent ty msg (Some {[ "dropped" := x; "totalDropped" := t ]}) ts).
Proof.
  intros d b' Hd Hl. injection Hd as <-.
  assert (E : ({[ "dropped" := x; "totalDropped" := t ]} : gmap string Z) !! "bufferSize" = None)
    by (vm_compute; reflexivity).
  rewrite E in Hl. discriminate Hl.
Qed.

Lemma bufferSizeOk_processed ty msg ts (v t b p : Z) :
  0 <= b <= BUFFER_LIMIT ->
  bufferSizeOk
    (mkEvent ty msg
       (Some {[ "value" := v; "transformed" := t; "bufferSize" := b; "processed" := p ]}) ts).
Proof.
  intros Hb d b' Hd Hl. injection Hd as <-.
  assert (E : ({[ "value" := v; "transformed" := t; "bufferSize" := b; "processed" := p ]}
                 : gmap string Z) !! "bufferSize" = Some b)
    by (vm_compute; reflexivity).
  rewrite E in Hl. injection Hl as <-. exact Hb.
Qed.

Lemma bufferSizeOk_summary ty msg ts (g p x s k : Z) :
  bufferSizeOk
    (mkEvent ty msg
       (Some {[ "generated" := g; "processed" := p; "dropped" := x; "sum" := s;
                "backpressureEvents" := k ]}) ts).
Proof.
  intros d b' Hd Hl. injection Hd as <-.
  assert (E : ({[ "generated" := g; "processed" := p; "dropped" := x; "sum" := s;
                  "backpressureEvents" := k ]} : gmap string Z) !! "bufferSize" = None)
    by (vm_compute; reflexivity).
  rewrite E in Hl. discriminate Hl.
Qed.

Lemma sized_producerPhase o h st :
  Accounted st -> Forall bufferSizeOk (delivered st) ->
  Forall bufferSizeOk (delivered (producerPhase o h st)).
Proof.
  intros [Hb Hl Ht] H. pose proof (bufferLength_nonneg st) as Hnn.
  unfold producerPhase, evictIfFull, generatedEvent, generatedEventFull.
  destruct (shouldGenerate st); [|exact H].
  unfold bufferLength, BUFFER_LIMIT in *.
  destruct (enableBackpressure o).
  - destruct (_ <? _) eqn:Hlt; read_tests; cbn [generate]; apply Forall_delivered_onEvent;
      try exact H.
    + apply bufferSizeOk_generated. cbn [buffer]. rewrite length_app. simpl.
      unfold BUFFER_LIMIT. lia.
    + apply bufferSizeOk_blocked. cbn [blocked buffer]. unfold BUFFER_LIMIT. lia.
  - destruct (_ >=? _) eqn:Hge; read_tests.
    + destruct (buffer st) as [|x rest] eqn:Hbuf; cbn [shift generate];
        apply Forall_delivered_onEvent.
      * exact H.
      * simpl in Hge. lia.
      * apply (Forall_delivered_onEvent bufferSizeOk h error _ _ (dropOldest rest st));
          [exact H|apply bufferSizeOk_overflow].
      * apply bufferSizeOk_generated. cbn [onEvent dropOldest buffer].
        rewrite length_app. simpl in *. unfold BUFFER_LIMIT. lia.
    + cbn [generate]. apply Forall_delivered_onEvent; [exact H|].
      apply bufferSizeOk_generated. cbn [buffer]. rewrite length_app. simpl.
      unfold BUFFER_LIMIT. lia.
Qed.

Lemma sized_consumerPhase o h st :
  Accounted st -> Forall bufferSizeOk (delivered st) ->
  Forall bufferSizeOk (delivered (consumerPhase o h st)).
Proof.
  intros [Hb Hl Ht] H. unfold consumerPhase.
  destruct (shouldConsume o st); [|exact H].
  unfold bufferLength, BUFFER_LIMIT in *.
  destruct (buffer st) as [|x rest] eqn:Hbuf; [exact H|]. cbn [shift].
  apply Forall_delivered_onEvent; [exact H|].
  apply bufferSizeOk_processed. cbn [consume buffer]. simpl in *. unfold BUFFER_LIMIT. lia.
Qed.

Lemma sized_afterCycles o h n :
  Accounted (afterCycles o h n) /\ Forall bufferSizeOk (delivered (afterCycles o h n)).
Proof.
  rewrite afterCycles_eq. apply whileLoop_keeps.
  - intros st [Ha Hs] _. split; [apply Accounted_loopBody, Ha|]. unfold loopBody.
    apply sized_consumerPhase.
    + apply Accounted_producerPhase, Accounted_nextCycle, Ha.
    + apply sized_producerPhase; [apply Accounted_nextCycle, Ha|exact Hs].
  - split; [apply Accounted_announce, Accounted_fresh|].
    unfold announce. repeat apply Forall_delivered_onEvent; try apply bufferSizeOk_none.
    constructor.
Qed.

(** ** The log of the hook *)

Lemma take_app_take {A : Type} (n : nat) (a b : list A) :
  take n (a ++ take n b) = take n (a ++ b).
Proof.
  rewrite !take_app, take_take. f_equal. f_equal. lia.
Qed.

Lemma deliver_fields events s :
  UseStreams.streamDemo (UseStreams.deliver events s) = UseStreams.streamDemo s /\
  UseStreams.processingSpeed (UseStreams.deliver events s) = UseStreams.processingSpeed s /\
  UseStreams.enableBackpressure (UseStreams.deliver events s) =
    UseStreams.enableBackpressure s /\
  UseStreams.batchSize (UseStreams.deliver events s) = UseStreams.batchSize s /\
  UseStreams.isStreamRunning (UseStreams.deliver events s) = UseStreams.isStreamRunning s.
Proof.
  revert s. induction events as [|e es IH]; intros s; [repeat split|].
  change (UseStreams.deliver (e :: es) s)
    with (UseStreams.deliver es (UseStreams.onStreamEvent e s)).
  destruct (IH (UseStreams.onStreamEvent e s)) as (-> & -> & -> & -> & ->). repeat split.
Qed.

Lemma deliver_logs events s :
  (length (UseStreams.streamLogs s) <= 100)%nat ->
  UseStreams.streamLogs (UseStreams.deliver events s) =
  take 100 (reverse events ++ UseStreams.streamLogs s).
Proof.
  revert s. induction events as [|e es IH]; intros s Hlen.
  - simpl. symmetry. apply take_ge, Hlen.
  - change (UseStreams.deliver (e :: es) s)
      with (UseStreams.deliver es (UseStreams.onStreamEvent e s)).
    rewrite IH.
    + cbn [UseStreams.onStreamEvent UseStreams.streamLogs]. unfold UseStreams.slice0.
      rewrite take_app_take, reverse_cons, <- app_assoc. reflexivity.
    + cbn [UseStreams.onStreamEvent UseStreams.streamLogs]. unfold UseStreams.slice0.
      rewrite length_take. lia.
Qed.

(** A run of the simulation delivers at most 45 events. *)
Lemma realtime_events_bound o h : (length (runRealTimeStreamDemo o h).2 <= 45)%nat.
Proof.
  apply Nat.leb_le. destruct o as [[] [] bs]; vm_compute; reflexivity.
Qed.

(** ** Writing and reading the CSV lines *)

Lemma split_field (a rest : string) :
  Csv.without "," a = true ->
  Csv.split "," (a +:+ String "," rest) = a :: Csv.split "," rest.
Proof.
  induction a as [|c a IH]; intros Hw; [reflexivity|].
  cbn [Csv.without] in Hw. apply andb_true_iff in Hw. destruct Hw as [Hc Ha].
  apply negb_true_iff in Hc. simpl. rewrite Hc, (IH Ha). reflexivity.
Qed.

Lemma without_uint (d : Decimal.uint) :
  Csv.without "," (NilEmpty.string_of_uint d) = true.
Proof. induction d; cbn; assumption || reflexivity. Qed.

Lemma without_show (z : Z) : Csv.without "," (show z) = true.
Proof.
  unfold show, NilZero.string_of_int, NilZero.string_of_uint.
  destruct (Z.to_int z) as [d|d]; destruct d; try reflexivity;
    apply (without_uint (_ _)) || (cbn [Csv.without]; apply (without_uint (_ _))).
Qed.

Lemma without_at_index_names (i : Z) :
  Csv.without "," (default "" (Csv.at_index Csv.names i)) = true.
Proof.
  unfold Csv.at_index. destruct (i <? 0); [reflexivity|].
  generalize (Z.to_nat i). intros n. do 9 (destruct n as [|n]; [reflexivity|]). reflexivity.
Qed.

Lemma without_at_index_statuses (i : Z) :
  Csv.without "," (default "" (Csv.at_index Csv.statuses i)) = true.
Proof.
  unfold Csv.at_index. destruct (i <? 0); [reflexivity|].
  generalize (Z.to_nat i). intros n. do 4 (destruct n as [|n]; [reflexivity|]). reflexivity.
Qed.

Lemma digitsValue_acc (d : Decimal.uint) (acc : positive) :
  Csv.digitsValue 10 Csv.decDigit (NilEmpty.string_of_uint d) (Some (Z.pos acc)) =
  Some (Z.pos (Pos.of_uint_acc d acc)).
Proof.
  revert acc. induction d; intros acc; cbn [NilEmpty.string_of_uint Csv.digitsValue];
    [reflexivity|..];
    match goal with
    | |- context [Csv.decDigit ?c] =>
        let v := eval vm_compute in (Csv.decDigit c) in
        change (Csv.decDigit c) with v
    end;
    cbn [default Pos.of_uint_acc]; rewrite <- IHd; unfold id; do 2 f_equal; lia.
Qed.

Lemma digitsValue_uint (d : Decimal.uint) (acc : option Z) :
  d <> Decimal.Nil -> default 0 acc = 0 ->
  Csv.digitsValue 10 Csv.decDigit (NilEmpty.string_of_uint d) acc =
  Some (Z.of_N (Pos.of_uint d)).
Proof.
  revert acc. induction d; intros acc Hd Hacc; [congruence|..];
    cbn [NilEmpty.string_of_uint Csv.digitsValue];
    match goal with
    | |- context [Csv.decDigit ?c] =>
        let v := eval vm_compute in (Csv.decDigit c) in
        change (Csv.decDigit c) with v
    end;
    cbn [Pos.of_uint]; rewrite Hacc.
  - destruct d; [reflexivity|apply IHd; [discriminate|reflexivity]..].
  - apply (digitsValue_acc d 1).
  - apply (digitsValue_acc d 2).
  - apply (digitsValue_acc d 3).
  - apply (digitsValue_acc d 4).
  - apply (digitsValue_acc d 5).
  - apply (digitsValue_acc d 6).
  - apply (digitsValue_acc d 7).
  - apply (digitsValue_acc d 8).
  - apply (digitsValue_acc d 9).
Qed.

Lemma parseMagnitude_uint (d : Decimal.uint) :
  d <> Decimal.Nil ->
  Csv.parseMagnitude (NilEmpty.string_of_uint d) = Some (Z.of_N (Pos.of_uint d)).
Proof.
  intros Hd. rewrite <- (digitsValue_uint d None Hd eq_refl).
  destruct d as [|d| | | | | | | | |]; try reflexivity. destruct d; reflexivity.
Qed.

Lemma trimStart_ascii (c : ascii) (r : string) :
  Csv.asciiWhiteSpace c = false -> (Csv.byte c < 128)%N ->
  Csv.trimStart (String c r) = String c r.
Proof.
  intros Hw Hb. cbn [Csv.trimStart]. rewrite Hw.
  assert (E1 : (Csv.byte c =? 194)%N = false) by (apply N.eqb_neq; lia).
  assert (E2 : (Csv.byte c =? 225)%N = false) by (apply N.eqb_neq; lia).
  assert (E3 : (Csv.byte c =? 226)%N = false) by (apply N.eqb_neq; lia).
  assert (E4 : (Csv.byte c =? 227)%N = false) by (apply N.eqb_neq; lia).
  assert (E5 : (Csv.byte c =? 239)%N = false) by (apply N.eqb_neq; lia).
  destruct r as [|c2 [|c3 r3]]; [reflexivity|rewrite E1; reflexivity|].
  rewrite E1. unfold Csv.wideWhiteSpace. rewrite E2, E3, E4, E5. reflexivity.
Qed.

Lemma trimStart_uint (d : Decimal.uint) :
  Csv.trimStart (NilEmpty.string_of_uint d) = NilEmpty.string_of_uint d.
Proof.
  destruct d; [reflexivity|..]; cbn [NilEmpty.string_of_uint];
    apply trimStart_ascii; reflexivity.
Qed.

Lemma parseInt_uint (d : Decimal.uint) :
  d <> Decimal.Nil ->
  Csv.parseInt (NilEmpty.string_of_uint d) = Some (Z.of_N (Pos.of_uint d)).
Proof.
  intros Hd. unfold Csv.parseInt. rewrite trimStart_uint, <- (parseMagnitude_uint d Hd).
  destruct d; try congruence; reflexivity.
Qed.

Lemma parseInt_neg_uint (d : Decimal.uint) :
  d <> Decimal.Nil ->
  Csv.parseInt (String "-" (NilEmpty.string_of_uint d)) = Some (- Z.of_N (Pos.of_uint d)).
Proof.
  intros Hd. unfold Csv.parseInt. rewrite trimStart_ascii by reflexivity.
  rewrite (parseMagnitude_uint d Hd). reflexivity.
Qed.

Lemma to_uint_not_Nil (p : positive) : Pos.to_uint p <> Decimal.Nil.
Proof.
  intros E. pose proof (DecimalPos.Unsigned.of_to p) as H. rewrite E in H. discriminate H.
Qed.

(** Reading the decimal writing of an integer gives the integer back. *)
Lemma parseInt_show (z : Z) : Csv.parseInt (show z) = Some z.
Proof.
  unfold show. destruct z as [|p|p]; [reflexivity| |];
    cbn [Z.to_int NilZero.string_of_int]; unfold NilZero.string_of_uint;
    pose proof (to_uint_not_Nil p) as Hd;
    pose proof (DecimalPos.Unsigned.of_to p) as Hp;
    destruct (Pos.to_uint p) eqn:E; try congruence;
    rewrite ?parseInt_uint, ?parseInt_neg_uint by discriminate; rewrite Hp; reflexivity.
Qed.

Lemma generateRows_lookup h iso (remaining : nat) :
  forall (i : Z) (randomCalls dateCalls j : nat),
    (j < remaining)%nat ->
    Csv.generateRows h iso remaining i randomCalls dateCalls !! j =
    Some (Csv.join ","
            [Some (show (i + Z.of_nat j));
             Csv.at_index Csv.names
               (Math_floor (Qmult (Math_random h (randomCalls + 3 * j))
                                  (inject_Z (Z.of_nat (length Csv.names)))));
             Csv.at_index Csv.statuses
               (Math_floor (Qmult (Math_random h (randomCalls + 3 * j + 1))
                                  (inject_Z (Z.of_nat (length Csv.statuses)))));
             Some (show (Math_floor (Qmult (Math_random h (randomCalls + 3 * j + 2))
                                           (inject_Z 1000))));
             Some (iso (dateCalls + j)%nat)]).
Proof.
  induction remaining as [|r IH]; intros i rc dc j Hj; [lia|].
  destruct j as [|j].
  - cbn [Csv.generateRows lookup list_lookup].
    replace (rc + 3 * 0)%nat with rc by lia. replace (dc + 0)%nat with dc by lia.
    replace (rc + 1)%nat with (S rc) by lia. replace (rc + 2)%nat with (S (S rc)) by lia.
    rewrite Z.add_0_r. reflexivity.
  - cbn [Csv.generateRows lookup list_lookup]. rewrite IH by lia.
    replace (i + 1 + Z.of_nat j) with (i + Z.of_nat (S j)) by lia.
    replace (S (S (S rc)) + 3 * j)%nat with (rc + 3 * S j)%nat by lia.
    replace (S dc + j)%nat with (dc + S j)%nat by lia. reflexivity.
Qed.

Lemma length_generateRows h iso (remaining : nat) :
  forall (i : Z) (randomCalls dateCalls : nat),
    length (Csv.generateRows h iso remaining i randomCalls dateCalls) = remaining.
Proof.
  induction remaining as [|r IH]; intros i rc dc; [reflexivity|].
  cbn [Csv.generateRows length]. rewrite IH. reflexivity.
Qed.

(** The fields read back from a line joined from five. *)
Lemma parseRow_join (a b c d : string) (e : option string) :
  Csv.without "," a = true -> Csv.without "," b = true ->
  Csv.without "," c = true -> Csv.without "," d = true ->
  Csv.parseRow (a +:+ "," +:+ b +:+ "," +:+ c +:+ "," +:+ d +:+ "," +:+ default "" e) =
  Csv.mkRow (Csv.parseInt a) (Some b) (Some c) (Csv.parseInt d).
Proof.
  intros Ha Hb Hc Hd. unfold Csv.parseRow.
  assert (field : forall x rest, Csv.without "," x = true ->
            Csv.split "," (x +:+ "," +:+ rest) = x :: Csv.split "," rest)
    by (intros x rest Hx; apply (split_field x rest Hx)).
  rewrite (field a), (field b), (field c), (field d) by assumption.
  reflexivity.
Qed.

Lemma parseRow_of_join (a b c d e : option string) :
  Csv.without "," (default "" a) = true -> Csv.without "," (default "" b) = true ->
  Csv.without "," (default "" c) = true -> Csv.without "," (default "" d) = true ->
  Csv.parseRow (Csv.join "," [a; b; c; d; e]) =
  Csv.mkRow (Csv.parseInt (default "" a)) (Some (default "" b)) (Some (default "" c))
            (Csv.parseInt (default "" d)).
Proof. intros Ha Hb Hc Hd. cbn [Csv.join]. apply parseRow_join; assumption. Qed.

(** ** The values through the events *)

Lemma event_generated msg ts (v b : Z) :
  let e := mkEvent transform msg (Some {[ "value" := v; "bufferSize" := b ]}) ts in
  generatedValue e = Some v /\ processedValue e = None /\ departedValue e = None.
Proof. vm_compute. repeat split. Qed.

Lemma event_blocked msg ts (b : Z) :
  let e := mkEvent backpressure msg (Some {[ "bufferSize" := b ]}) ts in
  generatedValue e = None /\ processedValue e = None /\ departedValue e = None.
Proof. vm_compute. repeat split. Qed.

Lemma event_overflow msg ts (x t : Z) :
  let e := mkEvent error msg (Some {[ "dropped" := x; "totalDropped" := t ]}) ts in
  generatedValue e = None /\ processedValue e = None /\ departedValue e = Some x.
Proof. vm_compute. repeat split. Qed.

Lemma event_processed msg ts (v t b p : Z) :
  let e :=
    mkEvent transform msg
      (Some {[ "value" := v; "transformed" := t; "bufferSize" := b; "processed" := p ]}) ts in
  generatedValue e = None /\ processedValue e = Some v /\ departedValue e = Some v.
Proof. vm_compute. repeat split. Qed.

Lemma event_plain ty msg ts :
  let e := mkEvent ty msg None ts in
  generatedValue e = None /\ processedValue e = None /\ departedValue e = None.
Proof. destruct ty; repeat split. Qed.

Lemma event_summary msg ts (g p x s k : Z) :
  let e :=
    mkEvent complete msg
      (Some {[ "generated" := g; "processed" := p; "dropped" := x; "sum" := s;
               "backpressureEvents" := k ]}) ts in
  generatedValue e = None /\ processedValue e = None /\ departedValue e = None.
Proof. vm_compute. repeat split. Qed.

(** One more event in the log: what it does to the three lists. *)
Lemma omap_snoc {A B : Type} (f : A -> option B) (l : list A) (e : A) :
  omap f (l ++ [e]) = omap f l ++ match f e with Some v => [v] | None => [] end.
Proof. rewrite omap_app. simpl. destruct (f e); reflexivity. Qed.

Lemma Logged_silent h ty msg d st st' :
  buffer st' = buffer st -> results st' = results st -> delivered st' = delivered st ->
  (let e := mkEvent ty msg d (Date_now h (nowCalls st')) in
   generatedValue e = None /\ processedValue e = None /\ departedValue e = None) ->
  Logged st -> Logged (onEvent h ty msg d st').
Proof.
  intros Hb Hr Hd (Eg & Ep & Ed) [Lb Lr]. split; cbn [onEvent delivered buffer results].
  - rewrite !omap_snoc, Eg, Ed, !app_nil_r, Hd, Hb. exact Lb.
  - rewrite omap_snoc, Ep, app_nil_r, Hd, Hr. exact Lr.
Qed.

Lemma Logged_pushed h ty msg d st st' (v : Z) :
  buffer st' = buffer st ++ [v] -> results st' = results st ->
  delivered st' = delivered st ->
  (let e := mkEvent ty msg d (Date_now h (nowCalls st')) in
   generatedValue e = Some v /\ processedValue e = None /\ departedValue e = None) ->
  Logged st -> Logged (onEvent h ty msg d st').
Proof.
  intros Hb Hr Hd (Eg & Ep & Ed) [Lb Lr]. split; cbn [onEvent delivered buffer results].
  - rewrite !omap_snoc, Eg, Ed, !app_nil_r, Hd, Hb, Lb, app_assoc. reflexivity.
  - rewrite omap_snoc, Ep, app_nil_r, Hd, Hr. exact Lr.
Qed.

Lemma Logged_dropped h ty msg d st st' (x : Z) (rest : list Z) :
  buffer st = x :: rest -> buffer st' = rest -> results st' = results st ->
  delivered st' = delivered st ->
  (let e := mkEvent ty msg d (Date_now h (nowCalls st')) in
   generatedValue e = None /\ processedValue e = None /\ departedValue e = Some x) ->
  Logged st -> Logged (onEvent h ty msg d st').
Proof.
  intros Hx Hb Hr Hd (Eg & Ep & Ed) [Lb Lr]. split; cbn [onEvent delivered buffer results].
  - rewrite !omap_snoc, Eg, Ed, !app_nil_r, Hd, Hb, Lb, Hx, <- app_assoc. reflexivity.
  - rewrite omap_snoc, Ep, app_nil_r, Hd, Hr. exact Lr.
Qed.

Lemma Logged_consumed h ty msg d st st' (x : Z) (rest : list Z) :
  buffer st = x :: rest -> buffer st' = rest -> results st' = results st ++ [x * 2] ->
  delivered st' = delivered st ->
  (let e := mkEvent ty msg d (Date_now h (nowCalls st')) in
   generatedValue e = None /\ processedValue e = Some x /\ departedValue e = Some x) ->
  Logged st -> Logged (onEvent h ty msg d st').
Proof.
  intros Hx Hb Hr Hd (Eg & Ep & Ed) [Lb Lr]. split; cbn [onEvent delivered buffer results].
  - rewrite !omap_snoc, Eg, Ed, !app_nil_r, Hd, Hb, Lb, Hx, <- app_assoc. reflexivity.
  - rewrite omap_snoc, Ep, Hd, Hr, Lr, map_app. reflexivity.
Qed.

Lemma Logged_same st st' :
  buffer st' = buffer st -> results st' = results st -> delivered st' = delivered st ->
  Logged st -> Logged st'.
Proof. intros Hb Hr Hd [Lb Lr]. split; rewrite ?Hb, ?Hr, ?Hd; assumption. Qed.

Lemma Logged_evictIfFull h st : Logged st -> Logged (evictIfFull h st).
Proof.
  intros H. unfold evictIfFull. destruct (_ >=? _); [|exact H].
  destruct (buffer st) as [|x rest] eqn:Hb; [exact H|]. cbn [shift].
  apply (Logged_dropped h error _ _ st (dropOldest rest st) x rest Hb);
    try reflexivity; [apply event_overflow|exact H].
Qed.

Lemma Logged_producerPhase o h st : Logged st -> Logged (producerPhase o h st).
Proof.
  intros H. unfold producerPhase, generatedEvent, generatedEventFull.
  destruct (shouldGenerate st); [|exact H].
  destruct (enableBackpressure o).
  - destruct (_ <? _); cbn [generate].
    + eapply (Logged_pushed h transform _ _ st); try reflexivity;
        [apply event_generated|exact H].
    + apply (Logged_silent h backpressure _ _ st (blocked st)); try reflexivity;
        [apply event_blocked|exact H].
  - cbn [generate].
    eapply (Logged_pushed h transform _ _ (evictIfFull h st)); try reflexivity;
      [apply event_generated|apply Logged_evictIfFull, H].
Qed.

Lemma Logged_consumerPhase o h st : Logged st -> Logged (consumerPhase o h st).
Proof.
  intros H. unfold consumerPhase. destruct (shouldConsume o st); [|exact H].
  destruct (buffer st) as [|x rest] eqn:Hb; [exact H|]. cbn [shift].
  apply (Logged_consumed h transform _ _ st (consume rest (x * 2) st) x rest Hb);
    try reflexivity; [apply event_processed|exact H].
Qed.

Lemma Logged_afterCycles o h n : Logged (afterCycles o h n).
Proof.
  rewrite afterCycles_eq. apply whileLoop_keeps.
  - intros st H _. unfold loopBody.
    apply Logged_consumerPhase, Logged_producerPhase.
    apply (Logged_same st); try reflexivity. exact H.
  - unfold announce.
    repeat (eapply Logged_silent; [reflexivity|reflexivity|reflexivity|apply event_plain|]).
    split; reflexivity.
Qed.

Lemma Logged_conclude o h st : Logged st -> Logged (conclude o h st).
Proof.
  intros H. unfold conclude. destruct (enableBackpressure o).
  - eapply Logged_silent; [reflexivity|reflexivity|reflexivity|apply event_plain|].
    eapply Logged_silent; [reflexivity|reflexivity|reflexivity|apply event_summary|exact H].
  - eapply Logged_silent; [reflexivity|reflexivity|reflexivity|apply event_plain|].
    eapply Logged_silent; [reflexivity|reflexivity|reflexivity|apply event_summary|exact H].
Qed.

(** Where no ['error'] event was delivered, the values taken out of the
    buffer are the processed values. *)
Lemma departed_without_error (evs : list StreamEvent) :
  Forall (fun e => type e <> error) evs ->
  omap departedValue evs = omap processedValue evs.
Proof.
  induction 1 as [|e evs He _ IH]; [reflexivity|]. cbn [omap list_omap]. rewrite <- IH.
  unfold departedValue, droppedValue. destruct (processedValue e); [reflexivity|].
  destruct (type e); try reflexivity. contradiction.
Qed.

(** ** Further properties of the simulation *)

(** X1. A run calls [Math.random()] once per generated item, so at most 20
    times, and [Date.now()] once per event; the sink receives 5 events (3
    before the loop, 2 after it) and one event per item generated, per item
    processed, per item dropped and per blocked attempt. *)
Theorem host_calls_and_event_count (o : StreamDemoOptions) (h : Host) :
  Z.of_nat (randomCalls (finalSim o h)) = itemsGenerated (finalSim o h) /\
  itemsGenerated (finalSim o h) <= 20 /\
  nowCalls (finalSim o h) = length (runRealTimeStreamDemo o h).2 /\
  Z.of_nat (length (runRealTimeStreamDemo o h).2) =
    5 + itemsGenerated (finalSim o h) + itemsProcessed (finalSim o h) +
    itemsDropped (finalSim o h) + backpressureEvents (finalSim o h).
Proof.
  unfold runRealTimeStreamDemo, finalSim. cbn [fst snd]. rewrite afterLoop_eq.
  generalize (Tallied_afterCycles o h (Z.to_nat maxCycles)).
  generalize (Accounted_afterCycles o h (Z.to_nat maxCycles)).
  generalize (afterCycles o h (Z.to_nat maxCycles)). intros st [_ _ Ht] [Hr Hn He].
  destruct (conclude_counters o h st) as (Eg & Ep & Ed & Eb & _).
  rewrite Eg, Ep, Ed, Eb, randomCalls_conclude, nowCalls_conclude, length_delivered_conclude.
  change TOTAL_ITEMS with 20 in Ht. repeat split; lia.
Qed.

(** X3. With backpressure enabled no value is lost, skipped or reordered:
    after every cycle and at the end of the run, the values announced by
    the events that generate a value are, in this order, the values
    announced by the events that process one, followed by the content of
    the buffer; the results are the processed values, doubled, in the same
    order. *)
Theorem backpressure_processes_in_generation_order (o : StreamDemoOptions) (h : Host) :
  enableBackpressure o = true ->
  (forall n,
     omap generatedValue (delivered (afterCycles o h n)) =
       omap processedValue (delivered (afterCycles o h n)) ++ buffer (afterCycles o h n) /\
     results (afterCycles o h n) =
       map transformed (omap processedValue (delivered (afterCycles o h n)))) /\
  omap generatedValue (runRealTimeStreamDemo o h).2 =
    omap processedValue (runRealTimeStreamDemo o h).2 ++ buffer (finalSim o h) /\
  results (finalSim o h) = map transformed (omap processedValue (runRealTimeStreamDemo o h).2).
Proof.
  intros Hon.
  assert (Hn : forall n,
    omap generatedValue (delivered (afterCycles o h n)) =
      omap processedValue (delivered (afterCycles o h n)) ++ buffer (afterCycles o h n) /\
    results (afterCycles o h n) =
      map transformed (omap processedValue (delivered (afterCycles o h n)))).
  { intros n. destruct (Logged_afterCycles o h n) as [Lb Lr].
    destruct (on_afterCycles o h n Hon) as [_ Hq].
    split; [rewrite <- (departed_without_error _ Hq); exact Lb|exact Lr]. }
  split; [exact Hn|].
  unfold runRealTimeStreamDemo, finalSim. cbn [fst snd]. rewrite afterLoop_eq.
  pose proof (Logged_conclude o h _ (Logged_afterCycles o h (Z.to_nat maxCycles))) as [Lb Lr].
  pose proof (Quiet_conclude o h error _ ltac:(discriminate)
                (proj2 (on_afterCycles o h (Z.to_nat maxCycles) Hon))) as Hq.
  split; [rewrite <- (departed_without_error _ Hq); exact Lb|exact Lr].
Qed.

Lemma backpressure_processes_in_generation_order_witness :
  omap generatedValue (runRealTimeStreamDemo slowOn sampleHost).2 =
    omap processedValue (runRealTimeStreamDemo slowOn sampleHost).2 ++
    buffer (finalSim slowOn sampleHost).
Proof.
  exact (proj1 (proj2 (backpressure_processes_in_generation_order slowOn sampleHost eq_refl))).
Defined.

(** X4. Under both policies the buffer is first in, first out: after every
    cycle and at the end of the run, the values announced by the events
    that generate a value are, in this order, the values announced by the
    events that take one out of the buffer (processed or dropped), followed
    by the content of the buffer; the results are the processed values,
    doubled, in the order of their events. *)
Theorem events_account_for_the_buffer (o : StreamDemoOptions) (h : Host) (n : nat) :
  (omap generatedValue (delivered (afterCycles o h n)) =
     omap departedValue (delivered (afterCycles o h n)) ++ buffer (afterCycles o h n) /\
   results (afterCycles o h n) =
     map transformed (omap processedValue (delivered (afterCycles o h n)))) /\
  omap generatedValue (runRealTimeStreamDemo o h).2 =
    omap departedValue (runRealTimeStreamDemo o h).2 ++ buffer (finalSim o h) /\
  results (finalSim o h) = map transformed (omap processedValue (runRealTimeStreamDemo o h).2).
Proof.
  split; [destruct (Logged_afterCycles o h n); split; assumption|].
  unfold runRealTimeStreamDemo, finalSim. cbn [fst snd]. rewrite afterLoop_eq.
  destruct (Logged_conclude o h _ (Logged_afterCycles o h (Z.to_nat maxCycles))).
  split; assumption.
Qed.

(** X6. The counters at the end of a run, and the number of cycles it
    takes, depend on the speed and the backpressure flag only, never on the
    values drawn or on the clock.  Every run takes the 60 cycles of the
    budget; 3, 12 or 20 items are processed at slow, normal or fast speed;
    and what backpressure blocks (13, 4 or 0 attempts) is what its absence
    drops. *)
Theorem outcome_depends_on_options_only (o : StreamDemoOptions) (h : Host) :
  cycles (finalSim o h) = 60 /\
  itemsProcessed (finalSim o h) =
    match processingSpeed o with slow => 3 | normal => 12 | fast => 20 end /\
  itemsGenerated (finalSim o h) =
    (if enableBackpressure o
     then match processingSpeed o with slow => 7 | normal => 16 | fast => 20 end
     else 20) /\
  itemsDropped (finalSim o h) =
    (if enableBackpressure o
     then 0
     else match processingSpeed o with slow => 13 | normal => 4 | fast => 0 end) /\
  backpressureEvents (finalSim o h) =
    (if enableBackpressure o
     then match processingSpeed o with slow => 13 | normal => 4 | fast => 0 end
     else 0).
Proof.
  destruct o as [[] [] bs]; vm_compute; repeat split.
Qed.

(** X7. With backpressure enabled the last event of a run always reports
    success: it has type ['complete'] and its message ends in ["SUCCESS!"];
    the message ["Some loss occurred"] is never delivered. *)
Theorem backpressure_verdict_is_success (o : StreamDemoOptions) (h : Host) :
  enableBackpressure o = true ->
  exists verdict,
    last (runRealTimeStreamDemo o h).2 = Some verdict /\
    type verdict = complete /\
    message verdict =
      "💡 Backpressure prevented data loss (" +:+ show (backpressureEvents (finalSim o h)) +:+
      " blocks) - SUCCESS!".
Proof.
  intros Hon. unfold runRealTimeStreamDemo, finalSim. cbn [fst snd].
  destruct (conclude_counters o h (afterLoop o h)) as (_ & _ & _ & -> & _).
  assert (Hd : itemsDropped (afterLoop o h) = 0)
    by (rewrite afterLoop_eq; apply on_afterCycles, Hon).
  revert Hd. generalize (afterLoop o h). intros st Hd.
  unfold conclude. rewrite Hon. cbn [onEvent delivered itemsDropped backpressureEvents].
  rewrite Hd. eexists. rewrite last_snoc. repeat split.
Qed.

Lemma backpressure_verdict_is_success_witness :
  exists verdict,
    last (runRealTimeStreamDemo slowOn sampleHost).2 = Some verdict /\
    type verdict = complete /\
    message verdict =
      "💡 Backpressure prevented data loss (" +:+
      show (backpressureEvents (finalSim slowOn sampleHost)) +:+ " blocks) - SUCCESS!".
Proof.
  exact (backpressure_verdict_is_success slowOn sampleHost eq_refl).
Defined.

(** X8. Every event of a run that carries a ["bufferSize"] in its data
    carries a size from 0 to 5: the sink is never told of a buffer above
    its capacity, under either policy. *)
Theorem reported_buffer_size_within_capacity (o : StreamDemoOptions) (h : Host) :
  Forall (fun e => forall (d : gmap string Z) (b : Z),
                     data e = Some d -> d !! "bufferSize" = Some b -> 0 <= b <= 5)
         (runRealTimeStreamDemo o h).2.
Proof.
  unfold runRealTimeStreamDemo, finalSim. cbn [fst snd]. rewrite afterLoop_eq.
  destruct (sized_afterCycles o h (Z.to_nat maxCycles)) as [_ Hs]. revert Hs.
  generalize (afterCycles o h (Z.to_nat maxCycles)). intros st Hs.
  change (Forall bufferSizeOk (delivered (conclude o h st))).
  unfold conclude. destruct (enableBackpressure o);
    repeat apply Forall_delivered_onEvent;
    try apply bufferSizeOk_none; try apply bufferSizeOk_summary; exact Hs.
Qed.

(** X9. The log of the hook is bounded and newest first: once a sequence of
    events has been delivered to a state whose log has at most 100 entries,
    the log holds the events in the reverse order of their delivery,
    followed by the former entries, cut after the first 100; nothing else
    of the state changes. *)
Theorem stream_log_is_newest_first_and_bounded
    (events : list StreamEvent) (s : UseStreams.StreamState) :
  (length (UseStreams.streamLogs s) <= 100)%nat ->
  UseStreams.streamLogs (UseStreams.deliver events s) =
    take 100 (reverse events ++ UseStreams.streamLogs s) /\
  (length (UseStreams.streamLogs (UseStreams.deliver events s)) <= 100)%nat /\
  UseStreams.streamDemo (UseStreams.deliver events s) = UseStreams.streamDemo s /\
  UseStreams.processingSpeed (UseStreams.deliver events s) = UseStreams.processingSpeed s /\
  UseStreams.enableBackpressure (UseStreams.deliver events s) =
    UseStreams.enableBackpressure s /\
  UseStreams.batchSize (UseStreams.deliver events s) = UseStreams.batchSize s /\
  UseStreams.isStreamRunning (UseStreams.deliver events s) = UseStreams.isStreamRunning s.
Proof.
  intros Hlen. split; [apply deliver_logs, Hlen|]. split; [|apply deliver_fields].
  rewrite deliver_logs by exact Hlen. rewrite length_take. lia.
Qed.

Lemma stream_log_is_newest_first_and_bounded_witness :
  UseStreams.streamLogs
    (UseStreams.deliver (runRealTimeStreamDemo fastOff sampleHost).2 UseStreams.initialState) =
  take 100 (reverse (runRealTimeStreamDemo fastOff sampleHost).2 ++ []).
Proof.
  refine (proj1 (stream_log_is_newest_first_and_bounded
                   (runRealTimeStreamDemo fastOff sampleHost).2 UseStreams.initialState _)).
  simpl. lia.
Defined.

(** X10. Running the simulation from the hook, whatever the state it is
    called in and whatever the host: the promise resolves to the value the
    simulation returns, the log is exactly the events of this run, newest
    first (the former entries are gone and no event of the run is cut off,
    a run delivering at most 45 events), the running flag is off again and
    the selected demo, speed, flag and batch size are as before. *)
Theorem realtime_run_fills_the_log
    (runCSV runComposition : StreamDemoOptions -> Host -> UseStreams.DemoRun)
    (h : Host) (s : UseStreams.StreamState) :
  UseStreams.streamDemo s = UseStreams.realtime ->
  let options :=
    mkOptions (UseStreams.processingSpeed s) (UseStreams.enableBackpressure s)
              (UseStreams.batchSize s) in
  let outcome := UseStreams.runStreamDemo runCSV runComposition h s in
  outcome.1 = Some (UseStreams.Object (runRealTimeStreamDemo options h).1) /\
  UseStreams.streamLogs outcome.2 = reverse (runRealTimeStreamDemo options h).2 /\
  (length (UseStreams.streamLogs outcome.2) <= 45)%nat /\
  UseStreams.isStreamRunning outcome.2 = false /\
  UseStreams.streamDemo outcome.2 = UseStreams.streamDemo s /\
  UseStreams.processingSpeed outcome.2 = UseStreams.processingSpeed s /\
  UseStreams.enableBackpressure outcome.2 = UseStreams.enableBackpressure s /\
  UseStreams.batchSize outcome.2 = UseStreams.batchSize s.
Proof.
  intros Hdemo options outcome. subst outcome. unfold UseStreams.runStreamDemo.
  rewrite Hdemo. fold options. unfold UseStreams.realtimeRun.
  cbn [UseStreams.sent UseStreams.settled UseStreams.clockReads fst snd].
  pose proof (realtime_events_bound options h) as Hb.
  set (events := (runRealTimeStreamDemo options h).2) in *.
  set (s0 := UseStreams.mkStreamState [] _ _ _ _ true).
  destruct (deliver_fields events s0) as (Ed & Es & Ef & Eb & _).
  pose proof (deliver_logs events s0) as Hl.
  cbn [UseStreams.streamLogs UseStreams.streamDemo UseStreams.processingSpeed
       UseStreams.enableBackpressure UseStreams.batchSize UseStreams.isStreamRunning].
  rewrite Hl by (simpl; lia). subst s0. simpl in Ed, Es, Ef, Eb.
  rewrite app_nil_r, take_ge by (rewrite length_reverse; lia).
  rewrite length_reverse. repeat split; assumption.
Qed.

Lemma realtime_run_fills_the_log_witness :
  UseStreams.streamLogs
    (UseStreams.runStreamDemo (fun _ _ => UseStreams.mkDemoRun [] 0 (inl (UseStreams.Number 0)))
       (fun _ _ => UseStreams.mkDemoRun [] 0 (inl (UseStreams.Number 0)))
       sampleHost
       (UseStreams.mkStreamState [] UseStreams.realtime slow true 10 false)).2 =
  reverse (runRealTimeStreamDemo (mkOptions slow true 10) sampleHost).2.
Proof.
  exact (proj1 (proj2 (realtime_run_fills_the_log _ _ sampleHost
                         (UseStreams.mkStreamState [] UseStreams.realtime slow true 10 false)
                         eq_refl))).
Defined.

(** X11. Whatever demo is selected and however it ends, [runStreamDemo]
    leaves the running flag off, keeps the selected demo, speed, flag and
    batch size, and leaves at most 100 entries in the log.  When the demo
    fails, the promise resolves to [undefined] and the log is the events of
    the run, newest first, under one more entry of type ['error'], unless
    the error text contains ["Interrupted"], in which case nothing is
    added. *)
Theorem run_stream_demo_always_settles
    (runCSV runComposition : StreamDemoOptions -> Host -> UseStreams.DemoRun)
    (h : Host) (s : UseStreams.StreamState) :
  let options :=
    mkOptions (UseStreams.processingSpeed s) (UseStreams.enableBackpressure s)
              (UseStreams.batchSize s) in
  let run :=
    match UseStreams.streamDemo s with
    | UseStreams.csv => runCSV options h
    | UseStreams.realtime => UseStreams.realtimeRun options h
    | UseStreams.composition => runComposition options h
    end in
  let outcome := UseStreams.runStreamDemo runCSV runComposition h s in
  UseStreams.isStreamRunning outcome.2 = false /\
  UseStreams.streamDemo outcome.2 = UseStreams.streamDemo s /\
  UseStreams.processingSpeed outcome.2 = UseStreams.processingSpeed s /\
  UseStreams.enableBackpressure outcome.2 = UseStreams.enableBackpressure s /\
  UseStreams.batchSize outcome.2 = UseStreams.batchSize s /\
  (length (UseStreams.streamLogs outcome.2) <= 100)%nat /\
  (forall err, UseStreams.settled run = inr err ->
     outcome.1 = None /\
     UseStreams.streamLogs outcome.2 =
       if UseStreams.includes "Interrupted" err
       then take 100 (reverse (UseStreams.sent run))
       else take 100
              (mkEvent error ("❌ Error: " +:+ err) None
                       (Date_now h (UseStreams.clockReads run))
               :: reverse (UseStreams.sent run))).
Proof.
  intros options run outcome. subst outcome. unfold UseStreams.runStreamDemo.
  fold options. fold run.
  set (s0 := UseStreams.mkStreamState [] _ _ _ _ true).
  destruct (deliver_fields (UseStreams.sent run) s0) as (Ed & Es & Ef & Eb & _).
  pose proof (deliver_logs (UseStreams.sent run) s0) as Hl.
  specialize (Hl ltac:(simpl; lia)). simpl in Hl. rewrite app_nil_r in Hl.
  simpl in Ed, Es, Ef, Eb.
  destruct (UseStreams.settled run) as [result|err] eqn:Hs.
  - cbn [fst snd UseStreams.streamLogs UseStreams.streamDemo UseStreams.processingSpeed
         UseStreams.enableBackpressure UseStreams.batchSize UseStreams.isStreamRunning].
    repeat split; try assumption.
    + rewrite Hl, length_take. lia.
    + discriminate.
    + discriminate.
  - destruct (UseStreams.includes "Interrupted" err) eqn:Hi;
      cbn [negb fst snd UseStreams.onStreamEvent UseStreams.streamLogs UseStreams.streamDemo
           UseStreams.processingSpeed UseStreams.enableBackpressure UseStreams.batchSize
           UseStreams.isStreamRunning];
      repeat split; try assumption.
    + rewrite Hl, length_take. lia.
    + injection H as <-. rewrite Hi. exact Hl.
    + unfold UseStreams.slice0. rewrite length_take. lia.
    + injection H as <-. rewrite Hi. unfold UseStreams.slice0. rewrite Hl.
      change (?e :: take 100 ?l) with ([e] ++ take 100 l).
      rewrite take_app_take. reflexivity.
Qed.

Lemma run_stream_demo_always_settles_witness :
  (UseStreams.runStreamDemo
     (fun _ _ => UseStreams.mkDemoRun [] 0 (inr "Error: boom"))
     (fun _ _ => UseStreams.mkDemoRun [] 0 (inl (UseStreams.Number 0)))
     sampleHost UseStreams.initialState).1 = None /\
  UseStreams.streamLogs
    (UseStreams.runStreamDemo
       (fun _ _ => UseStreams.mkDemoRun [] 0 (inr "Error: boom"))
       (fun _ _ => UseStreams.mkDemoRun [] 0 (inl (UseStreams.Number 0)))
       sampleHost UseStreams.initialState).2 =
  [mkEvent error ("❌ Error: " +:+ "Error: boom") None (Date_now sampleHost 0)].
Proof.
  exact (proj2 (proj2 (proj2 (proj2 (proj2 (proj2
    (run_stream_demo_always_settles
       (fun _ _ => UseStreams.mkDemoRun [] 0 (inr "Error: boom"))
       (fun _ _ => UseStreams.mkDemoRun [] 0 (inl (UseStreams.Number 0)))
       sampleHost UseStreams.initialState)))))) "Error: boom" eq_refl).
Defined.

Lemma reported_buffer_size_within_capacity_witness :
  exists (e : StreamEvent) (d : gmap string Z),
    (runRealTimeStreamDemo normalOn sampleHost).2 !! 3%nat = Some e /\
    data e = Some d /\ d !! "bufferSize" = Some 1 /\ 0 <= 1 <= 5.
Proof.
  pose proof (reported_buffer_size_within_capacity normalOn sampleHost) as H.
  rewrite Forall_lookup in H.
  assert (He : exists e, (runRealTimeStreamDemo normalOn sampleHost).2 !! 3%nat = Some e)
    by (eexists; vm_compute; reflexivity).
  destruct He as [e He].
  assert (Hd : exists d, data e = Some d /\ d !! "bufferSize" = Some 1).
  { vm_compute in He. injection He as <-. eexists. split; [reflexivity|].
    vm_compute. reflexivity. }
  destruct Hd as (d & Hd & Hb).
  exists e, d. repeat split; try assumption; apply (H 3%nat e He d 1 Hd Hb).
Defined.

(** X12. [generateCSVData(rows)] gives [rows + 1] lines, the header first
    (and alone when [rows] is 0); read as a row, the header has [NaN] for
    [id] and for [value] and is not active, so it would not pass the filter
    of the demo. *)
Theorem csv_data_has_header_and_rows (h : Host) (toISOString : nat -> string) (rows : nat) :
  length (Csv.generateCSVData h toISOString rows) = S rows /\
  Csv.generateCSVData h toISOString rows !! 0%nat = Some "id,name,status,value,timestamp" /\
  Csv.parseRow "id,name,status,value,timestamp" =
    Csv.mkRow None (Some "name") (Some "status") None /\
  Csv.isActive (Csv.parseRow "id,name,status,value,timestamp") = false.
Proof.
  unfold Csv.generateCSVData. cbn [length]. rewrite length_generateRows.
  repeat split; vm_compute; reflexivity.
Qed.

Lemma at_index_elem_or_empty (arr : list string) (i : Z) :
  default "" (Csv.at_index arr i) ∈ arr \/ default "" (Csv.at_index arr i) = "".
Proof.
  unfold Csv.at_index. destruct (i <? 0); [right; reflexivity|].
  destruct (arr !! Z.to_nat i) as [x|] eqn:Hx; [left|right; reflexivity].
  simpl. eapply list_elem_of_lookup_2, Hx.
Qed.

(** X13. Every data line that [generateCSVData] writes is read back by the
    parsing step of the demo ([split(',')] and [parseInt]) with the id it
    was written with, its row number, with one of the eight names as name
    and one of the three statuses as status (or the empty string, which is
    how a draw outside of the array is written), for every random source
    and every date string: what is written after them, commas included,
    does not reach these fields.  The number of rows is one that the
    counter of the loop counts exactly (at most 2^53 - 1). *)
Theorem csv_lines_keep_id_name_status
    (h : Host) (toISOString : nat -> string) (rows i : nat) :
  Z.of_nat rows <= 9007199254740991 ->
  (1 <= i <= rows)%nat ->
  exists line n s,
    Csv.generateCSVData h toISOString rows !! i = Some line /\
    Csv.id (Csv.parseRow line) = Some (Z.of_nat i) /\
    Csv.name (Csv.parseRow line) = Some n /\
    Csv.status (Csv.parseRow line) = Some s /\
    (n ∈ Csv.names \/ n = "") /\
    (s ∈ Csv.statuses \/ s = "").
Proof.
  intros _ Hi. destruct i as [|j]; [lia|].
  unfold Csv.generateCSVData. cbn [lookup list_lookup].
  rewrite generateRows_lookup by lia. do 3 eexists. split; [reflexivity|].
  rewrite parseRow_of_join.
  - cbn [Csv.id Csv.name Csv.status]. change (default "" (Some ?x)) with x.
    rewrite parseInt_show. split; [f_equal; lia|].
    split; [reflexivity|]. split; [reflexivity|].
    split; apply at_index_elem_or_empty.
  - apply without_show.
  - apply without_at_index_names.
  - apply without_at_index_statuses.
  - apply without_show.
Qed.

Lemma csv_lines_keep_id_name_status_witness :
  exists line n s,
    Csv.generateCSVData sampleHost sampleDates 3 !! 2%nat = Some line /\
    Csv.id (Csv.parseRow line) = Some (Z.of_nat 2) /\
    Csv.name (Csv.parseRow line) = Some n /\
    Csv.status (Csv.parseRow line) = Some s /\
    (n ∈ Csv.names \/ n = "") /\
    (s ∈ Csv.statuses \/ s = "").
Proof.
  apply (csv_lines_keep_id_name_status sampleHost sampleDates 3 2); simpl; lia.
Defined.

(** ** The producer is blocked by a full buffer only *)

Lemma blockedWhenFull_other ty msg d ts :
  ty <> backpressure -> blockedWhenFull (mkEvent ty msg d ts).
Proof. intros Hne Ht. contradiction. Qed.

Lemma blocked_producerPhase o h st :
  Accounted st -> Forall blockedWhenFull (delivered st) ->
  Forall blockedWhenFull (delivered (producerPhase o h st)).
Proof.
  intros [Hb Hl Ht] H.
  unfold producerPhase, evictIfFull, generatedEvent, generatedEventFull.
  destruct (shouldGenerate st); [|exact H].
  destruct (enableBackpressure o).
  - destruct (_ <? _) eqn:Hlt; read_tests; cbn [generate]; apply Forall_delivered_onEvent;
      try exact H.
    + apply blockedWhenFull_other. discriminate.
    + intros _. cbn [data blocked]. do 2 f_equal.
      change (bufferLength (blocked st)) with (bufferLength st). lia.
  - cbn [generate]. apply Forall_delivered_onEvent; [|apply blockedWhenFull_other; discriminate].
    destruct (_ >=? _); [|exact H].
    destruct (buffer st) as [|x rest]; cbn [shift]; [exact H|].
    apply (Forall_delivered_onEvent blockedWhenFull h error _ _ (dropOldest rest st));
      [exact H|apply blockedWhenFull_other; discriminate].
Qed.

Lemma blocked_consumerPhase o h st :
  Forall blockedWhenFull (delivered st) ->
  Forall blockedWhenFull (delivered (consumerPhase o h st)).
Proof.
  intros H. unfold consumerPhase. destruct (shouldConsume o st); [|exact H].
  destruct (buffer st) as [|x rest]; cbn [shift]; [exact H|].
  apply Forall_delivered_onEvent; [exact H|apply blockedWhenFull_other; discriminate].
Qed.

Lemma blocked_afterCycles o h n :
  Accounted (afterCycles o h n) /\ Forall blockedWhenFull (delivered (afterCycles o h n)).
Proof.
  rewrite afterCycles_eq. apply whileLoop_keeps.
  - intros st [Ha Hs] _. split; [apply Accounted_loopBody, Ha|]. unfold loopBody.
    apply blocked_consumerPhase, blocked_producerPhase; [apply Accounted_nextCycle, Ha|exact Hs].
  - split; [apply Accounted_announce, Accounted_fresh|].
    unfold announce.
    repeat (apply Forall_delivered_onEvent; [|apply blockedWhenFull_other; discriminate]).
    constructor.
Qed.

(** X15. The producer is blocked by a full buffer only: every event of type
    ['backpressure'] delivered by a run has the data [{ bufferSize: 5 }]. *)
Theorem backpressure_events_report_full_buffer (o : StreamDemoOptions) (h : Host) :
  Forall (fun e => type e = backpressure -> data e = Some {[ "bufferSize" := 5 ]})
         (runRealTimeStreamDemo o h).2.
Proof.
  unfold runRealTimeStreamDemo, finalSim. cbn [fst snd]. rewrite afterLoop_eq.
  destruct (blocked_afterCycles o h (Z.to_nat maxCycles)) as [_ Hs]. revert Hs.
  generalize (afterCycles o h (Z.to_nat maxCycles)). intros st Hs.
  change (Forall blockedWhenFull (delivered (conclude o h st))).
  unfold conclude. destruct (enableBackpressure o);
    repeat (apply Forall_delivered_onEvent; [|apply blockedWhenFull_other; discriminate]);
    exact Hs.
Qed.

Lemma backpressure_events_report_full_buffer_witness :
  exists e : StreamEvent,
    (runRealTimeStreamDemo slowOn sampleHost).2 !! 8%nat = Some e /\
    type e = backpressure /\
    data e = Some {[ "bufferSize" := 5 ]}.
Proof.
  pose proof (backpressure_events_report_full_buffer slowOn sampleHost) as H.
  rewrite Forall_lookup in H.
  assert (He : exists e, (runRealTimeStreamDemo slowOn sampleHost).2 !! 8%nat = Some e /\
                         type e = backpressure).
  { eexists. split; [vm_compute; reflexivity|reflexivity]. }
  destruct He as (e & He & Ht).
  exists e. repeat split; try assumption. exact (H 8%nat e He Ht).
Defined.
